(** * offboard_node: a MAVROS offboard mission (take-off, one figure-8, land)

    A shallow embedding of [src/offboard_node.cpp] and the properties of its
    control loop.

    - ROS time stamps are exact integers (seconds and nanoseconds); they are
      modelled as a nanosecond count in [Z].
    - [double] values are kept behind the interface [DoubleOps], which lists the
      operations the node performs on them.  The control-flow results hold for
      every implementation of that interface (in particular for IEEE binary64
      with any [sin]/[cos] of the C library, see [binary64_ops]).  The
      results on durations and on the curve are stated for the exact real
      numbers ([real_ops]), i.e. for the arithmetic the formulas denote; the
      bounds on the published coordinates are stated for rounded arithmetic
      as well ([rounded_ops]), where the computed y leaves the exact box by
      a rounding error, as a run on binary64 shows.
    - The node talks to its environment (clock, service servers, subscription
      queues, shutdown flag).  Every such interaction takes one tick of a
      logical counter, and the environment is an [Oracle] that answers the
      interaction made at a given tick; [clock env k] is the time at which
      interaction [k] takes place, and it is what [ros::Time::now()] returns
      when interaction [k] is a clock reading.  Outputs (published set-points
      and service requests) are collected in a trace, stamped with their tick.
    - Subscription callbacks run inside [ros::spinOnce()] only, so the vehicle
      state is fixed during a pass of the loop.
    - Not modelled: log output ([ROS_INFO]), and the exception roscpp raises
      when a time difference leaves the range of [ros::Duration]. *)

From Stdlib Require Import ZArith List String Bool Lia.
From Stdlib Require Import QArith Qreals.
From Stdlib Require Import Reals Lra Machin.
From Stdlib Require Import Floats.
Import ListNotations.

Local Open Scope Z_scope.

(** ** Values *)

(** [ros::Time] and [ros::Duration], in nanoseconds. *)
Definition RosTime := Z.

(** The operations of the node on [double]. *)
Class DoubleOps (D : Type) : Type := {
  dlit : Q -> D;            (* a decimal literal of the source text *)
  M_PI : D;                 (* <cmath> *)
  dmul : D -> D -> D;
  ddiv : D -> D -> D;
  dsin : D -> D;            (* std::sin *)
  dcos : D -> D;            (* std::cos *)
  dge : D -> D -> bool;     (* >= *)
  toSec : Z -> D            (* ros::Duration::toSec *)
}.

(** Exact real arithmetic. *)
#[export] Instance real_ops : DoubleOps R := {|
  dlit := Q2R;
  M_PI := PI;
  dmul := Rmult;
  ddiv := Rdiv;
  dsin := sin;
  dcos := cos;
  dge := fun a b => if Rle_dec b a then true else false;
  toSec := fun d => (IZR d / 1000000000)%R
|}.

(** IEEE binary64, for any two functions standing for the C library's [sin]
    and [cos].  [toSec] is roscpp's
    [static_cast<double>(sec) + 1e-9 * static_cast<double>(nsec)] on the
    normalised pair ([0 <= nsec < 10^9]). *)
Definition float_of_Z (z : Z) : float :=
  if z <? 0 then PrimFloat.opp (PrimFloat.of_uint63 (Uint63.of_Z (- z)))
  else PrimFloat.of_uint63 (Uint63.of_Z z).

Definition binary64_ops (fsin fcos : float -> float) : DoubleOps float := {|
  dlit := fun q => PrimFloat.div (float_of_Z (Qnum q)) (float_of_Z (Zpos (Qden q)));
  M_PI := 0x1.921fb54442d18p+1%float;
  dmul := PrimFloat.mul;
  ddiv := PrimFloat.div;
  dsin := fsin;
  dcos := fcos;
  dge := fun a b => PrimFloat.leb b a;
  toSec := fun d =>
    PrimFloat.add (float_of_Z (d / 1000000000))
      (PrimFloat.mul (PrimFloat.div (float_of_Z 1) (float_of_Z 1000000000))
                     (float_of_Z (d mod 1000000000)))
|}.

(** [#define]s of the source. *)
Definition PHASE_TAKEOFF : Z := 1.
Definition PHASE_FIGURE8 : Z := 2.
Definition PHASE_LAND : Z := 3.
Definition PHASE_COMPLETE : Z := 4.

(** [ros::Duration(5.0)]. *)
Definition REQUEST_PERIOD : RosTime := 5000000000.

(** The fields of [mavros_msgs::State] the node reads. *)
Record MavState : Type := mkMavState {
  connected : bool;
  armed : bool;
  mode : string
}.

(** Outputs of the node. *)
Inductive Event (D : Type) : Type :=
| EvPublish (x y z : D)            (* local_pos_pub.publish(pose) *)
| EvSetMode (custom_mode : string) (* set_mode_client.call *)
| EvArming (value : bool).         (* arming_client.call *)
Arguments EvPublish {D} x y z.
Arguments EvSetMode {D} custom_mode.
Arguments EvArming {D} value.

Section Node.
Context {D : Type} `{DoubleOps D}.

Definition TAKEOFF_Z : D := dlit (6 # 1).
Definition RADIUS : D := dlit (15 # 1).
Definition ANGULAR_SPEED : D := dlit (3 # 10).

(** The position part of a [geometry_msgs::PoseStamped]; header and
    orientation are never written by the node. *)
Record Position : Type := mkPosition {
  pos_x : D;
  pos_y : D;
  pos_z : D
}.

(** Globals and the locals of [main]. *)
Record Vars : Type := mkVars {
  current_state : MavState;
  current_local_pose : Position;
  mission_start_time : RosTime;
  phase_start_time : RosTime;
  current_phase : Z;
  pose : Position;
  last_request : RosTime
}.

Record World : Type := mkWorld {
  vars : Vars;
  tick : nat      (* number of interactions with the environment so far *)
}.

(** What the environment answers to the interaction made at a tick. *)
Record Oracle : Type := mkOracle {
  clock : nat -> RosTime;                    (* ros::Time::now() *)
  ros_ok : nat -> bool;                      (* ros::ok() *)
  set_mode_srv : nat -> string -> bool * bool;  (* call(), response.mode_sent *)
  arming_srv : nat -> bool -> bool * bool;      (* call(), response.success *)
  state_msgs : nat -> list MavState;         (* messages dispatched by spinOnce *)
  pose_msgs : nat -> list Position
}.

Definition Trace : Type := list (nat * Event D).

(** ** The monad of the node: environment, state, output trace *)

Definition M (A : Type) : Type := Oracle -> World -> A * World * Trace.

Definition ret {A} (a : A) : M A := fun _ w => (a, w, []).

Definition bind {A B} (m : M A) (f : A -> M B) : M B :=
  fun env w =>
    let '(a, w1, t1) := m env w in
    let '(b, w2, t2) := f a env w1 in
    (b, w2, t1 ++ t2).

Notation "x <- m ;; k" := (bind m (fun x => k))
  (at level 61, m at next level, right associativity).
Notation "m ;; k" := (bind m (fun _ => k))
  (at level 61, right associativity).

Definition gets {A} (f : Vars -> A) : M A := fun _ w => (f (vars w), w, []).

Definition modify (f : Vars -> Vars) : M unit :=
  fun _ w => (tt, mkWorld (f (vars w)) (tick w), []).

(** One interaction: the oracle's answer at the current tick. *)
Definition bump (w : World) : World := mkWorld (vars w) (S (tick w)).

Definition ask {A} (f : Oracle -> nat -> A) : M A :=
  fun env w => (f env (tick w), bump w, []).

Definition emit (e : Event D) : M unit :=
  fun _ w => (tt, w, [(tick w, e)]).

Definition set_current_state (s : MavState) (v : Vars) : Vars :=
  mkVars s (current_local_pose v) (mission_start_time v) (phase_start_time v)
         (current_phase v) (pose v) (last_request v).
Definition set_current_local_pose (p : Position) (v : Vars) : Vars :=
  mkVars (current_state v) p (mission_start_time v) (phase_start_time v)
         (current_phase v) (pose v) (last_request v).
Definition set_mission_start_time (t : RosTime) (v : Vars) : Vars :=
  mkVars (current_state v) (current_local_pose v) t (phase_start_time v)
         (current_phase v) (pose v) (last_request v).
Definition set_phase_start_time (t : RosTime) (v : Vars) : Vars :=
  mkVars (current_state v) (current_local_pose v) (mission_start_time v) t
         (current_phase v) (pose v) (last_request v).
Definition set_current_phase (p : Z) (v : Vars) : Vars :=
  mkVars (current_state v) (current_local_pose v) (mission_start_time v)
         (phase_start_time v) p (pose v) (last_request v).
Definition set_pose (p : Position) (v : Vars) : Vars :=
  mkVars (current_state v) (current_local_pose v) (mission_start_time v)
         (phase_start_time v) (current_phase v) p (last_request v).
Definition set_last_request (t : RosTime) (v : Vars) : Vars :=
  mkVars (current_state v) (current_local_pose v) (mission_start_time v)
         (phase_start_time v) (current_phase v) (pose v) t.

Definition set_pos_x (a : D) (p : Position) : Position := mkPosition a (pos_y p) (pos_z p).
Definition set_pos_y (a : D) (p : Position) : Position := mkPosition (pos_x p) a (pos_z p).

(** ** ROS primitives *)

Definition now : M RosTime := ask clock.

Definition ok : M bool := ask ros_ok.

Definition publish (p : Position) : M unit :=
  emit (EvPublish (pos_x p) (pos_y p) (pos_z p)) ;; ask (fun _ _ => tt).

(** A service call returns [call(srv) && srv.response.<flag>]. *)
Definition call_set_mode (custom_mode : string) : M bool :=
  emit (EvSetMode custom_mode) ;;
  r <- ask (fun env k => set_mode_srv env k custom_mode) ;;
  ret (fst r && snd r).

Definition call_arming (value : bool) : M bool :=
  emit (EvArming value) ;;
  r <- ask (fun env k => arming_srv env k value) ;;
  ret (fst r && snd r).

(** [state_cb] and [local_pos_cb]. *)
Definition state_cb (msg : MavState) : Vars -> Vars := set_current_state msg.
Definition local_pos_cb (msg : Position) : Vars -> Vars := set_current_local_pose msg.

(** [ros::spinOnce()]: the queued messages are handed to the callbacks. *)
Definition spinOnce : M unit :=
  ss <- ask state_msgs ;;
  modify (fun v => fold_left (fun v m => state_cb m v) ss v) ;;
  ps <- ask pose_msgs ;;
  modify (fun v => fold_left (fun v m => local_pos_cb m v) ps v).

(** [rate.sleep()]: time passes. *)
Definition sleep : M unit := ask (fun _ _ => tt).

(** ** The control loop of [main] *)

(** [(2.0 * M_PI) / ANGULAR_SPEED] *)
Definition required_figure8_duration : D :=
  ddiv (dmul (dlit (2 # 1)) M_PI) ANGULAR_SPEED.

(** [ros::Time::now() - last_request > ros::Duration(5.0)] *)
Definition request_due : M bool :=
  t <- now ;;
  lr <- gets last_request ;;
  ret (REQUEST_PERIOD <? t - lr).

(** Lines 88-101: offboard and arming requests. *)
Definition command_arbitration : M unit :=
  st <- gets current_state ;;
  c <- (if negb (String.eqb (mode st) "OFFBOARD"%string) then request_due else ret false) ;;
  if c then
    sent <- call_set_mode "OFFBOARD"%string ;;
    (if sent then t <- now ;; modify (set_phase_start_time t) else ret tt) ;;
    t <- now ;;
    modify (set_last_request t)
  else
    c' <- (if negb (armed st) then request_due else ret false) ;;
    if c' then
      _ <- call_arming true ;;
      t <- now ;;
      modify (set_last_request t)
    else ret tt.

(** Lines 111-113 and 128-137: the target computed in a phase. *)
Definition takeoff_target : Position :=
  mkPosition (dlit (0 # 1)) (dlit (0 # 1)) TAKEOFF_Z.

Definition figure8_target (figure8_time : D) : Position :=
  let angle := dmul ANGULAR_SPEED figure8_time in
  mkPosition (dmul RADIUS (dsin angle))
             (dmul (dmul RADIUS (dsin angle)) (dcos angle))
             TAKEOFF_Z.

(** Lines 104-167: the mission phases. *)
Definition phase_logic : M unit :=
  st <- gets current_state ;;
  if armed st && String.eqb (mode st) "OFFBOARD"%string then
    t <- now ;;
    ps <- gets phase_start_time ;;
    let time_in_phase := toSec (t - ps) in
    ph <- gets current_phase ;;
    if ph =? PHASE_TAKEOFF then
      modify (set_pose takeoff_target) ;;
      if dge time_in_phase (dlit (15 # 1)) then
        modify (set_current_phase PHASE_FIGURE8) ;;
        t' <- now ;;
        modify (set_phase_start_time t')
      else ret tt
    else if ph =? PHASE_FIGURE8 then
      modify (set_pose (figure8_target time_in_phase)) ;;
      if dge time_in_phase required_figure8_duration then
        modify (set_current_phase PHASE_LAND) ;;
        modify (fun v => set_pose (set_pos_x (dlit (0 # 1)) (pose v)) v) ;;
        modify (fun v => set_pose (set_pos_y (dlit (0 # 1)) (pose v)) v)
      else ret tt
    else if ph =? PHASE_LAND then
      _ <- call_set_mode "AUTO.LAND"%string ;;
      modify (set_current_phase PHASE_COMPLETE)
    else ret tt
  else ret tt.

(** Lines 170-173. *)
Definition publish_setpoint : M unit :=
  ph <- gets current_phase ;;
  if ph <? PHASE_LAND then p <- gets pose ;; publish p else ret tt.

(** One pass through the body of the [while(ros::ok())] loop: the three
    blocks that decide and publish, then [ros::spinOnce(); rate.sleep();]. *)
Definition control_step : M unit :=
  command_arbitration ;;
  phase_logic ;;
  publish_setpoint.

Definition iteration : M unit :=
  control_step ;;
  spinOnce ;;
  sleep.

(** The loop, for at most [fuel] passes. *)
Fixpoint main_loop (fuel : nat) : M unit :=
  match fuel with
  | O => ret tt
  | S fuel' =>
      go <- ok ;;
      if go then iteration ;; main_loop fuel' else ret tt
  end.

(** ** Start-up of [main] *)

(** Lines 55-58; the result tells whether the loop was left. *)
Fixpoint wait_for_connection (fuel : nat) : M bool :=
  match fuel with
  | O => ret false
  | S fuel' =>
      go <- ok ;;
      st <- gets current_state ;;
      if go && negb (connected st) then
        spinOnce ;; sleep ;; wait_for_connection fuel'
      else ret true
  end.

(** Lines 67-71: [for(int i = 0; ros::ok() && i < 100; i++)]. *)
Fixpoint warmup (fuel : nat) (i : Z) : M unit :=
  match fuel with
  | O => ret tt
  | S fuel' =>
      go <- ok ;;
      if go && (i <? 100) then
        p <- gets pose ;;
        publish p ;; spinOnce ;; sleep ;; warmup fuel' (i + 1)
      else ret tt
  end.

(** Lines 61-79, with the warm-up publications. *)
Definition startup : M unit :=
  modify (set_pose (mkPosition (dlit (0 # 1)) (dlit (0 # 1)) TAKEOFF_Z)) ;;
  warmup 101 0 ;;
  t <- now ;; modify (set_last_request t) ;;
  t <- now ;; modify (set_mission_start_time t) ;;
  t <- now ;; modify (set_phase_start_time t).

Definition main (fuel_wait fuel_loop : nat) : M unit :=
  left_loop <- wait_for_connection fuel_wait ;;
  if left_loop then startup ;; main_loop fuel_loop else ret tt.

(** The state of the globals when [main] starts. *)
Definition initial_world : World :=
  let origin := mkPosition (dlit (0 # 1)) (dlit (0 # 1)) (dlit (0 # 1)) in
  mkWorld (mkVars (mkMavState false false EmptyString) origin 0 0 PHASE_TAKEOFF origin 0) O.

(** ** Observations *)

(** Result, final state and output of a run. *)
Definition value {A} (m : M A) (env : Oracle) (w : World) : A := fst (fst (m env w)).
Definition exec {A} (m : M A) (env : Oracle) (w : World) : World := snd (fst (m env w)).
Definition output {A} (m : M A) (env : Oracle) (w : World) : Trace := snd (m env w).

Definition is_publish (e : Event D) : bool :=
  match e with EvPublish _ _ _ => true | _ => false end.

(** Service requests of any kind. *)
Definition is_request (e : Event D) : bool :=
  match e with EvPublish _ _ _ => false | _ => true end.

(** The requests of lines 88-101: mode change to OFFBOARD, and arming. *)
Definition is_command (e : Event D) : bool :=
  match e with
  | EvSetMode m => String.eqb m "OFFBOARD"%string
  | EvArming _ => true
  | EvPublish _ _ _ => false
  end.

Definition select (p : Event D -> bool) (tr : Trace) : Trace :=
  filter (fun ke => p (snd ke)) tr.

(** The set-point event of a position. *)
Definition setpoint (p : Position) : Event D := EvPublish (pos_x p) (pos_y p) (pos_z p).

(** Any two events of the trace are more than [REQUEST_PERIOD] apart on the
    clock [c], the later one after the earlier one. *)
Fixpoint spaced (c : nat -> RosTime) (tr : Trace) : Prop :=
  match tr with
  | [] => True
  | ke :: rest =>
      Forall (fun ke' => REQUEST_PERIOD < c (fst ke') - c (fst ke)) rest /\ spaced c rest
  end.

Definition monotone (c : nat -> RosTime) : Prop :=
  forall i j : nat, (i <= j)%nat -> c i <= c j.

(** Two states, and two environments, that differ at most in the
    [connected] flag of the vehicle state. *)
Definition same_but_connected (s1 s2 : MavState) : Prop :=
  armed s1 = armed s2 /\ mode s1 = mode s2.

Definition worlds_agree (w1 w2 : World) : Prop :=
  tick w1 = tick w2 /\
  same_but_connected (current_state (vars w1)) (current_state (vars w2)) /\
  current_local_pose (vars w1) = current_local_pose (vars w2) /\
  mission_start_time (vars w1) = mission_start_time (vars w2) /\
  phase_start_time (vars w1) = phase_start_time (vars w2) /\
  current_phase (vars w1) = current_phase (vars w2) /\
  pose (vars w1) = pose (vars w2) /\
  last_request (vars w1) = last_request (vars w2).

Definition telemetry_agrees (env1 env2 : Oracle) : Prop :=
  (forall k, clock env1 k = clock env2 k) /\
  (forall k, ros_ok env1 k = ros_ok env2 k) /\
  (forall k m, set_mode_srv env1 k m = set_mode_srv env2 k m) /\
  (forall k b, arming_srv env1 k b = arming_srv env2 k b) /\
  (forall k, pose_msgs env1 k = pose_msgs env2 k) /\
  (forall k, Forall2 same_but_connected (state_msgs env1 k) (state_msgs env2 k)).

(** "Every phase transition resets [phase_start_time] to the current time":
    after a pass that changed the phase, the variable holds a clock reading
    of that pass. *)
Definition timer_reset_on_transition (env : Oracle) (w : World) : Prop :=
  current_phase (vars (exec iteration env w)) <> current_phase (vars w) ->
  exists k : nat,
    (tick w <= k < tick (exec iteration env w))%nat /\
    phase_start_time (vars (exec iteration env w)) = clock env k.

(** The phase after start-up and at most [n] passes of the control loop. *)
Definition phase_after (env : Oracle) (fuel_wait n : nat) : Z :=
  current_phase (vars (exec (main fuel_wait n) env initial_world)).

End Node.

Arguments Position D : clear implicits.
Arguments Vars D : clear implicits.
Arguments World D : clear implicits.
Arguments Oracle D : clear implicits.
Arguments Trace D : clear implicits.
Arguments M D A : clear implicits.

(** ** Exact arithmetic: notions and sample runs *)

(** [a] and [b] differ by at most [tol]. *)
Definition within (tol a b : R) : Prop := (Rabs (a - b) <= tol)%R.

(** The box [-RADIUS, RADIUS] x [-RADIUS/2, RADIUS/2]. *)
Definition in_box (p : Position R) : Prop :=
  (- RADIUS <= pos_x p <= RADIUS)%R /\
  (- (RADIUS / 2) <= pos_y p <= RADIUS / 2)%R.

(** The Lemniscate of Gerono of the specification, at [t] seconds:
    (R sin a, R sin a cos a, TAKEOFF_Z) with a = ANGULAR_SPEED * t,
    R = 15, ANGULAR_SPEED = 0.3 and TAKEOFF_Z = 6. *)
Definition gerono (t : R) : Position R :=
  mkPosition (15 * sin (3 / 10 * t))%R
             (15 * sin (3 / 10 * t) * cos (3 / 10 * t))%R
             6%R.

(** The worked example of the specification: 5 s into the figure the
    published point is within 1e-6 of (15 sin 1.5, 15 sin 1.5 cos 1.5, 6), and
    its first two coordinates are [xr] and [yr] to two decimals. *)
Definition example_at_5s (xr yr : R) (env : Oracle R) (w : World R) : Prop :=
  exists x y z : R,
    map snd (output iteration env w) = [EvPublish x y z] /\
    within (1 / 1000000) x (15 * sin (3 / 2)) /\
    within (1 / 1000000) y (15 * sin (3 / 2) * cos (3 / 2)) /\
    within (1 / 1000000) z 6 /\
    within (5 / 1000) x xr /\
    within (5 / 1000) y yr.

(** A state of the loop in phase [ph] with vehicle state [st]; the target is
    the take-off point and all timers are at 0. *)
Definition sample_world (st : MavState) (ph : Z) : World R :=
  mkWorld (mkVars st takeoff_target 0 0 ph takeoff_target 0) O.

(** An environment whose clock reads [t0] first and [dt] more at every tick,
    whose servers accept every request, and which delivers the messages
    [msgs] at every [spinOnce]. *)
Definition sample_env (t0 dt : RosTime) (msgs : list MavState) : Oracle R :=
  mkOracle (fun k => t0 + dt * Z.of_nat k) (fun _ => true)
           (fun _ _ => (true, true)) (fun _ _ => (true, true))
           (fun _ => msgs) (fun _ => []).

Definition flying : MavState := mkMavState true true "OFFBOARD".
Definition disarmed : MavState := mkMavState true false "MANUAL".

(** ** Rounded arithmetic *)

(** The usual model of binary64 on the reals: a literal and every operation
    give the rounding [rnd] of the exact value; [fsin] and [fcos] stand for
    the C library's [sin] and [cos], [tsec] for roscpp's [toSec]. *)
Definition rounded_ops (rnd fsin fcos : R -> R) (tsec : Z -> R) : DoubleOps R := {|
  dlit := fun q => rnd (Q2R q);
  M_PI := rnd PI;
  dmul := fun a b => rnd (a * b)%R;
  ddiv := fun a b => rnd (a / b)%R;
  dsin := fsin;
  dcos := fcos;
  dge := fun a b => if Rle_dec b a then true else false;
  toSec := tsec
|}.

(** Rounding to nearest, below overflow: the error is at most [u] times the
    exact value plus [eta] (the term of gradual underflow), rounding is
    monotone, and the integers up to 2^53 are not changed.  Binary64 has
    [u = 2^-53] and [eta = 2^-1075]. *)
Definition rounding (u eta : R) (rnd : R -> R) : Prop :=
  (forall r : R, Rabs (rnd r - r) <= u * Rabs r + eta)%R /\
  (forall r1 r2 : R, r1 <= r2 -> rnd r1 <= rnd r2)%R /\
  (forall n : Z, Z.abs n <= 2 ^ 53 -> rnd (IZR n) = IZR n).

(** A library function [f] for [g] with results in [-1, 1]: the absolute
    error is at most [eps]. *)
Definition library (eps : R) (f g : R -> R) : Prop :=
  forall a : R, (Rabs (f a - g a) <= eps)%R /\ (Rabs (f a) <= 1)%R.

(** The box, with [tol] more on both sides of y. *)
Definition in_box_up_to (tol : R) (p : Position R) : Prop :=
  (- RADIUS <= pos_x p <= RADIUS)%R /\
  (- (RADIUS / 2) - tol <= pos_y p <= RADIUS / 2 + tol)%R.

(** A set-point in that box; requests pass. *)
Definition in_fence_up_to (tol : R) (e : Event R) : Prop :=
  match e with
  | EvPublish x y z => in_box_up_to tol (mkPosition x y z)
  | _ => True
  end.

(** ** The box in binary64 *)

(** The real number a finite binary64 value stands for. *)
Definition float_to_R (f : float) : R :=
  match Prim2SF f with
  | S754_finite s m e => ((if s then -1 else 1) * IZR (Zpos m) * powerRZ 2 e)%R
  | _ => 0%R
  end.

(** [-15 <= x <= 15] and [-7.5 <= y <= 7.5] on doubles. *)
Definition in_box_binary64 (p : Position float) : bool :=
  PrimFloat.leb (float_of_Z (-15)) (pos_x p) && PrimFloat.leb (pos_x p) (float_of_Z 15) &&
  PrimFloat.leb (PrimFloat.div (float_of_Z (-15)) (float_of_Z 2)) (pos_y p) &&
  PrimFloat.leb (pos_y p) (PrimFloat.div (float_of_Z 15) (float_of_Z 2)).

(** The angle the code computes [ns] nanoseconds into the figure. *)
Definition binary64_angle (ns : Z) : float :=
  let ops := binary64_ops (fun a => a) (fun a => a) in
  @dmul float ops (@ANGULAR_SPEED float ops) (@toSec float ops ns).

(** ** Notions for whole runs *)

(** An armed vehicle in OFFBOARD mode: the guard of line 104. *)
Definition flying_state (s : MavState) : Prop :=
  armed s = true /\ mode s = "OFFBOARD"%string.

(** Every time is reached by the clock. *)
Definition unbounded (c : nat -> RosTime) : Prop :=
  forall t : RosTime, exists k : nat, t <= c k.

Section NodeNotions.
Context {D : Type} `{DoubleOps D}.

(** The AUTO.LAND requests of line 157. *)
Definition is_land_request (e : Event D) : bool :=
  match e with
  | EvSetMode m => String.eqb m "AUTO.LAND"%string
  | _ => false
  end.

(** A set-point at the take-off altitude; requests pass. *)
Definition at_takeoff_altitude (e : Event D) : Prop :=
  match e with
  | EvPublish _ _ z => z = TAKEOFF_Z
  | _ => True
  end.

(** [ros::ok()] does not become true again once it was false. *)
Definition ok_stable (env : Oracle D) : Prop :=
  forall i j : nat, (i <= j)%nat -> ros_ok env j = true -> ros_ok env i = true.

(** Two environments that differ at most in the position feed, in the answers
    to arming requests and in the answers to mode requests other than
    OFFBOARD. *)
Definition inputs_agree (env1 env2 : Oracle D) : Prop :=
  (forall k, clock env1 k = clock env2 k) /\
  (forall k, ros_ok env1 k = ros_ok env2 k) /\
  (forall k, set_mode_srv env1 k "OFFBOARD" = set_mode_srv env2 k "OFFBOARD") /\
  (forall k, state_msgs env1 k = state_msgs env2 k).

(** Two states that differ at most in [current_local_pose]. *)
Definition same_but_local_pose (w1 w2 : World D) : Prop :=
  tick w1 = tick w2 /\
  current_state (vars w1) = current_state (vars w2) /\
  mission_start_time (vars w1) = mission_start_time (vars w2) /\
  phase_start_time (vars w1) = phase_start_time (vars w2) /\
  current_phase (vars w1) = current_phase (vars w2) /\
  pose (vars w1) = pose (vars w2) /\
  last_request (vars w1) = last_request (vars w2).

(** The state after the [spinOnce(); sleep()] that ends a turn of a loop. *)
Definition after_spin (env : Oracle D) (w : World D) : World D :=
  mkWorld
    (set_current_local_pose
       (fold_left (fun _ m => m) (pose_msgs env (S (tick w))) (current_local_pose (vars w)))
       (set_current_state
          (fold_left (fun _ m => m) (state_msgs env (tick w)) (current_state (vars w)))
          (vars w)))
    (S (S (S (tick w)))).

(** The state in which [main] enters the control loop, when the wait for the
    connection was left. *)
Definition loop_entry (env : Oracle D) (fuel_wait : nat) : World D :=
  exec startup env (exec (wait_for_connection fuel_wait) env initial_world).

End NodeNotions.

(** A timed phase [p]: with the vehicle armed and in OFFBOARD mode, a pass
    leaves it for [p + 1] once [limit] nanoseconds have passed on the phase
    timer, and otherwise leaves phase and timer as they are. *)
Definition timed_phase (env : Oracle R) (p : Z) (limit : Z) : Prop :=
  forall w : World R,
    flying_state (current_state (vars w)) -> current_phase (vars w) = p ->
    (limit <= clock env (tick w) - phase_start_time (vars w) ->
     current_phase (vars (exec iteration env w)) = p + 1) /\
    (current_phase (vars (exec iteration env w)) = p + 1 \/
     (current_phase (vars (exec iteration env w)) = p /\
      phase_start_time (vars (exec iteration env w)) = phase_start_time (vars w))).

(** [sample_env] with a position feed and servers that refuse to arm and to
    change to any mode but OFFBOARD. *)
Definition refusing_env (t0 dt : RosTime) (msgs : list MavState) : Oracle R :=
  mkOracle (fun k => t0 + dt * Z.of_nat k) (fun _ => true)
           (fun _ m => (true, String.eqb m "OFFBOARD")) (fun _ _ => (false, false))
           (fun _ => msgs) (fun _ => [mkPosition 1%R 2%R 3%R]).

(** * Properties that hold for every arithmetic *)

Section NodeFacts.
Context {D : Type} `{DoubleOps D}.

(** ** Running a sequence *)

Lemma exec_bind {A B} (m : M D A) (f : A -> M D B) (env : Oracle D) (w : World D) :
  exec (bind m f) env w = exec (f (value m env w)) env (exec m env w).
Proof.
  unfold exec, value, bind. destruct (m env w) as [[a w1] t1]. cbn.
  destruct (f a env w1) as [[b w2] t2]. reflexivity.
Qed.

Lemma output_bind {A B} (m : M D A) (f : A -> M D B) (env : Oracle D) (w : World D) :
  output (bind m f) env w =
  output m env w ++ output (f (value m env w)) env (exec m env w).
Proof.
  unfold output, exec, value, bind. destruct (m env w) as [[a w1] t1]. cbn.
  destruct (f a env w1) as [[b w2] t2]. reflexivity.
Qed.

(** ** [spinOnce] writes the two subscription variables only *)

Lemma state_cb_fold (ss : list MavState) (v : Vars D) :
  fold_left (fun v m => state_cb m v) ss v =
  set_current_state (fold_left (fun _ m => m) ss (current_state v)) v.
Proof.
  revert v. induction ss as [|s ss IH]; intros v.
  - destruct v; reflexivity.
  - cbn [fold_left]. rewrite IH. destruct v; reflexivity.
Qed.

Lemma local_pos_cb_fold (ps : list (Position D)) (v : Vars D) :
  fold_left (fun v m => local_pos_cb m v) ps v =
  set_current_local_pose (fold_left (fun _ m => m) ps (current_local_pose v)) v.
Proof.
  revert v. induction ps as [|p ps IH]; intros v.
  - destruct v; reflexivity.
  - cbn [fold_left]. rewrite IH. destruct v; reflexivity.
Qed.

Lemma spinOnce_exec (env : Oracle D) (w : World D) :
  exec spinOnce env w =
  mkWorld
    (set_current_local_pose
       (fold_left (fun _ m => m) (pose_msgs env (S (tick w))) (current_local_pose (vars w)))
       (set_current_state
          (fold_left (fun _ m => m) (state_msgs env (tick w)) (current_state (vars w)))
          (vars w)))
    (S (S (tick w))).
Proof.
  unfold spinOnce, exec, bind, ask, modify. cbn.
  rewrite state_cb_fold, local_pos_cb_fold. reflexivity.
Qed.

Lemma spinOnce_output (env : Oracle D) (w : World D) : output spinOnce env w = [].
Proof. reflexivity. Qed.

(** The part of [iteration] after [control_step]. *)
Lemma iteration_exec (env : Oracle D) (w : World D) :
  exec iteration env w =
  let w1 := exec control_step env w in
  mkWorld
    (set_current_local_pose
       (fold_left (fun _ m => m) (pose_msgs env (S (tick w1)))
          (current_local_pose (vars w1)))
       (set_current_state
          (fold_left (fun _ m => m) (state_msgs env (tick w1)) (current_state (vars w1)))
          (vars w1)))
    (S (S (S (tick w1)))).
Proof.
  unfold iteration. rewrite !exec_bind, spinOnce_exec. reflexivity.
Qed.

Lemma iteration_output (env : Oracle D) (w : World D) :
  output iteration env w = output control_step env w.
Proof.
  unfold iteration. rewrite !output_bind, spinOnce_output. cbn.
  rewrite !app_nil_r. reflexivity.
Qed.

(** ** Case analysis of [control_step] *)

Ltac unfold_node :=
  unfold control_step, command_arbitration, phase_logic, publish_setpoint,
    request_due, call_set_mode, call_arming, publish, now, ok,
    bind, ret, gets, modify, ask, emit in *.

Ltac break_step :=
  match goal with
  | |- context [if ?c then _ else _] => destruct c eqn:?
  end; cbn in *.

Ltac open_world w :=
  let v := fresh "v" in
  let k := fresh "k" in
  let st := fresh "st" in
  destruct w as [v k]; destruct v as [st ? ? ? ? ? ?];
  destruct st as [? ? ?]; cbn in *.

Ltac step_cases w :=
  open_world w; unfold exec, output, value; unfold_node; cbn; repeat break_step.

Ltac bools :=
  repeat match goal with
  | Hb : (_ <? _) = true |- _ => apply Z.ltb_lt in Hb
  | Hb : (_ <? _) = false |- _ => apply Z.ltb_ge in Hb
  | Hb : (_ =? _) = true |- _ => apply Z.eqb_eq in Hb
  | Hb : (_ =? _) = false |- _ => apply Z.eqb_neq in Hb
  end;
  unfold PHASE_TAKEOFF, PHASE_FIGURE8, PHASE_LAND, PHASE_COMPLETE in *.

(** The guards of lines 88/95 and of line 104 exclude each other. *)
Ltac absurd_guard :=
  match goal with
  | H1 : negb ?m = true, H2 : _ && ?m = true |- _ =>
      destruct m; [discriminate H1 | rewrite andb_false_r in H2; discriminate H2]
  | H1 : negb ?a = true, H2 : ?a && _ = true |- _ =>
      destruct a; [discriminate H1 | discriminate H2]
  end.

Lemma idle_guard (s : MavState) :
  armed s = false \/ mode s <> "OFFBOARD"%string ->
  armed s && String.eqb (mode s) "OFFBOARD" = false.
Proof.
  intros [Ha | Hm].
  - rewrite Ha. reflexivity.
  - apply String.eqb_neq in Hm. rewrite Hm. apply andb_false_r.
Qed.

(** The phase moves by at most one step forward in a pass. *)
Lemma iteration_phase (env : Oracle D) (w : World D) :
  current_phase (vars (exec iteration env w)) = current_phase (vars w) \/
  (current_phase (vars (exec iteration env w)) = current_phase (vars w) + 1 /\
   PHASE_TAKEOFF <= current_phase (vars w) < PHASE_COMPLETE).
Proof.
  rewrite iteration_exec. cbn.
  step_cases w; bools; subst; auto; right; split; lia.
Qed.

(** What a pass publishes. *)
Lemma iteration_publications (env : Oracle D) (w : World D) :
  map snd (select is_publish (output iteration env w)) =
  if current_phase (vars (exec iteration env w)) <? PHASE_LAND
  then [setpoint (pose (vars (exec iteration env w)))] else [].
Proof.
  rewrite iteration_exec, iteration_output. cbn.
  step_cases w; try reflexivity; try discriminate; bools; lia.
Qed.

(** What a pass requests.  A request of lines 88-101 is made right after a
    clock reading that is more than [REQUEST_PERIOD] past [last_request], and
    [last_request] is then set to a later reading. *)
Lemma iteration_commands (env : Oracle D) (w : World D) :
  (select is_command (output iteration env w) = [] /\
   last_request (vars (exec iteration env w)) = last_request (vars w)) \/
  (exists (k j : nat) (e : Event D),
     select is_command (output iteration env w) = [(k, e)] /\
     (tick w < k < j)%nat /\
     REQUEST_PERIOD < clock env (Nat.pred k) - last_request (vars w) /\
     last_request (vars (exec iteration env w)) = clock env j).
Proof.
  rewrite iteration_exec, iteration_output. cbn.
  step_cases w;
    first [ left; split; reflexivity
          | right; eexists _, _, _; split; [reflexivity|];
            split; [|split; [|reflexivity]]; cbn; bools; lia ].
Qed.

Lemma iteration_requests (env : Oracle D) (w : World D) :
  (List.length (select is_request (output iteration env w)) <= 1)%nat.
Proof.
  rewrite iteration_output. step_cases w; cbn; try lia; absurd_guard.
Qed.

Lemma iteration_tick (env : Oracle D) (w : World D) :
  (tick w < tick (exec iteration env w))%nat.
Proof.
  rewrite iteration_exec. cbn. step_cases w; lia.
Qed.

(** ** The loop *)

Lemma main_loop_exec (n : nat) (env : Oracle D) (w : World D) :
  exec (main_loop (S n)) env w =
  if ros_ok env (tick w)
  then exec (main_loop n) env (exec iteration env (bump w))
  else bump w.
Proof.
  cbn [main_loop]. rewrite exec_bind.
  unfold value at 1. unfold exec at 2. unfold ok, ask. cbn.
  destruct (ros_ok env (tick w)); [|reflexivity].
  rewrite exec_bind. reflexivity.
Qed.

Lemma main_loop_output (n : nat) (env : Oracle D) (w : World D) :
  output (main_loop (S n)) env w =
  if ros_ok env (tick w)
  then output iteration env (bump w) ++
       output (main_loop n) env (exec iteration env (bump w))
  else [].
Proof.
  cbn [main_loop]. rewrite output_bind.
  unfold value at 1. unfold exec at 1. unfold output at 1. unfold ok, ask. cbn.
  destruct (ros_ok env (tick w)); [|reflexivity].
  rewrite output_bind. reflexivity.
Qed.

Lemma select_app (p : Event D -> bool) (t1 t2 : Trace D) :
  select p (t1 ++ t2) = select p t1 ++ select p t2.
Proof. apply filter_app. Qed.

Lemma select_publish_nil (tr : Trace D) :
  map snd (select is_publish tr) = [] -> select is_publish tr = [].
Proof. destruct (select is_publish tr); [reflexivity | discriminate]. Qed.

Lemma main_loop_phase_step (n : nat) (env : Oracle D) (w : World D) :
  current_phase (vars (exec (main_loop (S n)) env w)) =
    current_phase (vars (exec (main_loop n) env w)) \/
  (current_phase (vars (exec (main_loop (S n)) env w)) =
     current_phase (vars (exec (main_loop n) env w)) + 1 /\
   PHASE_TAKEOFF <= current_phase (vars (exec (main_loop n) env w)) < PHASE_COMPLETE).
Proof.
  revert w. induction n as [|n IH]; intros w.
  - rewrite main_loop_exec. destruct (ros_ok env (tick w)).
    + apply (iteration_phase env (bump w)).
    + left. reflexivity.
  - rewrite (main_loop_exec (S n) env w), (main_loop_exec n env w).
    destruct (ros_ok env (tick w)).
    + apply IH.
    + left. reflexivity.
Qed.

Lemma main_loop_silent_after_land (n : nat) (env : Oracle D) (w : World D) :
  PHASE_LAND <= current_phase (vars w) ->
  select is_publish (output (main_loop n) env w) = [].
Proof.
  revert w. induction n as [|n IH]; intros w Hw.
  - reflexivity.
  - rewrite main_loop_output. destruct (ros_ok env (tick w)); [|reflexivity].
    assert (Hw' : PHASE_LAND <= current_phase (vars (exec iteration env (bump w)))).
    { destruct (iteration_phase env (bump w)) as [E | [E _]]; rewrite E; cbn; lia. }
    rewrite select_app, (IH _ Hw'), app_nil_r.
    apply select_publish_nil. rewrite iteration_publications.
    apply Z.ltb_ge in Hw'. rewrite Hw'. reflexivity.
Qed.

(** ** Start-up leaves the phase alone *)

Lemma wait_for_connection_phase (fuel : nat) (env : Oracle D) (w : World D) :
  current_phase (vars (exec (wait_for_connection fuel) env w)) = current_phase (vars w).
Proof.
  revert w. induction fuel as [|fuel IH]; intros w; [reflexivity|].
  cbn [wait_for_connection]. rewrite !exec_bind.
  match goal with |- context [if ?c then _ else _] => destruct c end.
  - rewrite !exec_bind, IH, spinOnce_exec. reflexivity.
  - reflexivity.
Qed.

Lemma warmup_phase (fuel : nat) (i : Z) (env : Oracle D) (w : World D) :
  current_phase (vars (exec (warmup fuel i) env w)) = current_phase (vars w).
Proof.
  revert i w. induction fuel as [|fuel IH]; intros i w; [reflexivity|].
  cbn [warmup]. rewrite !exec_bind.
  match goal with |- context [if ?c then _ else _] => destruct c end.
  - rewrite !exec_bind, IH, spinOnce_exec. reflexivity.
  - reflexivity.
Qed.

Lemma startup_phase (env : Oracle D) (w : World D) :
  current_phase (vars (exec startup env w)) = current_phase (vars w).
Proof.
  unfold startup. rewrite exec_bind, exec_bind.
  set (w1 := exec (warmup 101 0) env _).
  assert (E : current_phase (vars w1) = current_phase (vars w)).
  { unfold w1. rewrite warmup_phase. reflexivity. }
  rewrite <- E. reflexivity.
Qed.

(** [main] is start-up followed by the loop, unless the wait was cut short. *)
Lemma main_exec (env : Oracle D) (fuel_wait : nat) :
  exists w0 : World D,
    current_phase (vars w0) = PHASE_TAKEOFF /\
    ((forall n, exec (main fuel_wait n) env initial_world = exec (main_loop n) env w0) \/
     (forall n, exec (main fuel_wait n) env initial_world = w0)).
Proof.
  unfold main.
  destruct (value (wait_for_connection fuel_wait) env initial_world) eqn:E.
  - exists (exec startup env (exec (wait_for_connection fuel_wait) env initial_world)).
    split.
    + rewrite startup_phase, wait_for_connection_phase. reflexivity.
    + left. intros n. rewrite exec_bind, E, exec_bind. reflexivity.
  - exists (exec (wait_for_connection fuel_wait) env initial_world). split.
    + rewrite wait_for_connection_phase. reflexivity.
    + right. intros n. rewrite exec_bind, E. reflexivity.
Qed.

(** C3.  Along every execution of [main] the phase starts at [PHASE_TAKEOFF],
    each pass of the loop leaves it or moves it to the next phase, it stays
    within Takeoff..Complete, and it never decreases: no phase is skipped,
    none is entered again. *)
Theorem phase_advances_monotonically (env : Oracle D) (fuel_wait : nat) :
  phase_after env fuel_wait 0 = PHASE_TAKEOFF /\
  (forall n, phase_after env fuel_wait (S n) = phase_after env fuel_wait n \/
             phase_after env fuel_wait (S n) = phase_after env fuel_wait n + 1) /\
  (forall n, PHASE_TAKEOFF <= phase_after env fuel_wait n <= PHASE_COMPLETE) /\
  (forall n m, (n <= m)%nat -> phase_after env fuel_wait n <= phase_after env fuel_wait m).
Proof.
  unfold phase_after.
  destruct (main_exec env fuel_wait) as (w0 & Hw0 & [Hrun | Hstop]).
  - assert (Hstep : forall n,
      current_phase (vars (exec (main_loop (S n)) env w0)) =
        current_phase (vars (exec (main_loop n) env w0)) \/
      (current_phase (vars (exec (main_loop (S n)) env w0)) =
         current_phase (vars (exec (main_loop n) env w0)) + 1 /\
       PHASE_TAKEOFF <= current_phase (vars (exec (main_loop n) env w0)) < PHASE_COMPLETE))
      by (intros n; apply main_loop_phase_step).
    assert (Hrange : forall n,
      PHASE_TAKEOFF <= current_phase (vars (exec (main_loop n) env w0)) <= PHASE_COMPLETE).
    { induction n as [|n IHn].
      - cbn. rewrite Hw0. unfold PHASE_TAKEOFF, PHASE_COMPLETE. lia.
      - destruct (Hstep n) as [E | [E Hb]]; rewrite E;
          unfold PHASE_TAKEOFF, PHASE_COMPLETE in *; lia. }
    repeat split.
    + rewrite Hrun. exact Hw0.
    + intros n. rewrite !Hrun. destruct (Hstep n) as [E | [E _]]; auto.
    + rewrite Hrun. apply Hrange.
    + rewrite Hrun. apply Hrange.
    + intros n m Hnm. rewrite !Hrun. induction Hnm as [|m Hnm IHm].
      * apply Z.le_refl.
      * eapply Z.le_trans; [exact IHm|].
        destruct (Hstep m) as [E | [E _]]; rewrite E; lia.
  - repeat split; intros; rewrite ?Hstop, ?Hw0; auto;
      unfold PHASE_TAKEOFF, PHASE_COMPLETE; lia.
Qed.

(** C4.  A pass of the loop publishes the set-point exactly when the phase,
    as tested on line 170, is before Land, and it publishes the target held at
    that point; once the phase is Land or later, the loop publishes nothing
    any more. *)
Theorem publish_iff_before_land (env : Oracle D) (w : World D) :
  (map snd (select is_publish (output iteration env w)) =
     if current_phase (vars (exec iteration env w)) <? PHASE_LAND
     then [setpoint (pose (vars (exec iteration env w)))] else []) /\
  (forall fuel : nat,
     PHASE_LAND <= current_phase (vars w) ->
     select is_publish (output (main_loop fuel) env w) = []).
Proof.
  split.
  - apply iteration_publications.
  - intros fuel Hw. apply main_loop_silent_after_land. exact Hw.
Qed.

(** ** Requests are more than five seconds apart *)

Lemma main_loop_commands (env : Oracle D) (Hmono : monotone (clock env))
  (n : nat) (w : World D) :
  Forall (fun ke => (tick w < fst ke)%nat /\
                    REQUEST_PERIOD < clock env (fst ke) - last_request (vars w))
         (select is_command (output (main_loop n) env w)) /\
  spaced (clock env) (select is_command (output (main_loop n) env w)).
Proof.
  revert w. induction n as [|n IH]; intros w.
  - split; [constructor | exact I].
  - rewrite main_loop_output. destruct (ros_ok env (tick w)).
    2: { split; [constructor | exact I]. }
    rewrite select_app.
    destruct (IH (exec iteration env (bump w))) as [IH1 IH2].
    pose proof (iteration_tick env (bump w)) as Ht.
    destruct (iteration_commands env (bump w))
      as [[Hnone Hlr] | (k & j & e & Hone & Hk & Hdue & Hlr)].
    + rewrite Hnone. cbn [app]. split; [|exact IH2].
      eapply Forall_impl; [|exact IH1]. cbn. intros ke [Hke1 Hke2].
      rewrite Hlr in Hke2. cbn in *. split; [lia | exact Hke2].
    + rewrite Hone. cbn [app]. cbn in Hk, Hdue.
      assert (Hpk : clock env (Nat.pred k) <= clock env k) by (apply Hmono; lia).
      assert (Hkj : clock env k <= clock env j) by (apply Hmono; lia).
      split; [constructor|split]; cbn [fst].
      * split; [lia|]. clear - Hdue Hpk. lia.
      * eapply Forall_impl; [|exact IH1]. cbn. intros ke [Hke1 Hke2].
        rewrite Hlr in Hke2. cbn in Ht. split; [lia|].
        clear - Hdue Hpk Hkj Hke2. unfold REQUEST_PERIOD in *. lia.
      * eapply Forall_impl; [|exact IH1]. cbn. intros ke [Hke1 Hke2].
        rewrite Hlr in Hke2. clear - Hkj Hke2. lia.
      * exact IH2.
Qed.

(** C5.  With a clock that never runs backwards: a pass makes at most one of
    the two requests of lines 88-101, the OFFBOARD request only when the mode
    is not OFFBOARD and the arming request only when the vehicle is not armed;
    and along the loop every such request is made more than 5 s after
    [last_request] and more than 5 s after every earlier such request,
    whatever the answers were. *)
Theorem commands_exclusive_and_spaced (env : Oracle D) (w : World D)
  (Hmono : monotone (clock env)) :
  (List.length (select is_command (output iteration env w)) <= 1)%nat /\
  (forall k, In (k, EvSetMode "OFFBOARD") (output iteration env w) ->
             mode (current_state (vars w)) <> "OFFBOARD"%string) /\
  (forall k v, In (k, EvArming v) (output iteration env w) ->
               armed (current_state (vars w)) = false) /\
  (forall fuel : nat,
     Forall (fun ke => REQUEST_PERIOD < clock env (fst ke) - last_request (vars w))
            (select is_command (output (main_loop fuel) env w)) /\
     spaced (clock env) (select is_command (output (main_loop fuel) env w))).
Proof.
  split; [|split; [|split]].
  - destruct (iteration_commands env w) as [[E _] | (k & j & e & E & _)];
      rewrite E; cbn; lia.
  - intros k. rewrite iteration_output. rewrite <- String.eqb_neq.
    step_cases w; intros Hin; cbn in Hin;
      repeat (destruct Hin as [Hin | Hin]; try discriminate Hin);
      try contradiction; try absurd_guard.
    all: destruct (String.eqb mode0 "OFFBOARD"); [discriminate | reflexivity].
  - intros k v. rewrite iteration_output.
    step_cases w; intros Hin; cbn in Hin;
      repeat (destruct Hin as [Hin | Hin]; try discriminate Hin);
      try contradiction; try absurd_guard.
    all: destruct armed0; [discriminate | reflexivity].
  - intros fuel. split.
    + eapply Forall_impl; [|apply (main_loop_commands env Hmono fuel w)].
      cbn. intros ke [_ Hke]. exact Hke.
    + apply (main_loop_commands env Hmono fuel w).
Qed.

(** C9.  A pass makes at most one service call; when it makes the AUTO.LAND
    call it makes neither the OFFBOARD nor the arming call, because the phases
    run only for an armed vehicle in OFFBOARD mode. *)
Theorem one_service_call_per_iteration (env : Oracle D) (w : World D) :
  (List.length (select is_request (output iteration env w)) <= 1)%nat /\
  (forall k, In (k, EvSetMode "AUTO.LAND") (output iteration env w) ->
             select is_command (output iteration env w) = [] /\
             armed (current_state (vars w)) = true /\
             mode (current_state (vars w)) = "OFFBOARD"%string).
Proof.
  split; [apply iteration_requests|].
  intros k. rewrite iteration_output.
  step_cases w; intros Hin; cbn in Hin;
    repeat (destruct Hin as [Hin | Hin]; try discriminate Hin);
    try contradiction; try absurd_guard.
  all: match goal with
       | Hg : _ && String.eqb _ _ = true |- _ =>
           apply andb_prop in Hg; destruct Hg as [Ha Hm]
       end;
    apply String.eqb_eq in Hm; auto.
Qed.

(** C10.  A pass during which the vehicle is not armed or not in OFFBOARD mode
    leaves the target and the phase as they were, and while the phase is
    before Land it publishes that same, unrefreshed target. *)
Theorem idle_iteration_keeps_target (env : Oracle D) (w : World D)
  (Hidle : armed (current_state (vars w)) = false \/
           mode (current_state (vars w)) <> "OFFBOARD"%string) :
  pose (vars (exec iteration env w)) = pose (vars w) /\
  current_phase (vars (exec iteration env w)) = current_phase (vars w) /\
  (current_phase (vars w) < PHASE_LAND ->
   map snd (select is_publish (output iteration env w)) = [setpoint (pose (vars w))]).
Proof.
  apply idle_guard in Hidle.
  rewrite iteration_exec, iteration_output. cbn.
  revert Hidle. step_cases w; intros Hg; try discriminate.
  all: repeat split; try reflexivity; intros Hp; bools; lia.
Qed.

(** ** A pass in the Figure8 phase *)

Lemma figure8_pass (env : Oracle D) (w : World D) :
  armed (current_state (vars w)) = true ->
  mode (current_state (vars w)) = "OFFBOARD"%string ->
  current_phase (vars w) = PHASE_FIGURE8 ->
  (dge (toSec (clock env (tick w) - phase_start_time (vars w)))
       required_figure8_duration = true ->
   current_phase (vars (exec iteration env w)) = PHASE_LAND /\
   pose (vars (exec iteration env w)) =
     mkPosition (dlit (0 # 1)) (dlit (0 # 1)) TAKEOFF_Z /\
   output iteration env w = []) /\
  (dge (toSec (clock env (tick w) - phase_start_time (vars w)))
       required_figure8_duration = false ->
   current_phase (vars (exec iteration env w)) = PHASE_FIGURE8 /\
   pose (vars (exec iteration env w)) =
     figure8_target (toSec (clock env (tick w) - phase_start_time (vars w))) /\
   map snd (output iteration env w) =
     [setpoint (figure8_target (toSec (clock env (tick w) - phase_start_time (vars w))))]).
Proof.
  rewrite iteration_exec, iteration_output. cbn.
  open_world w. intros -> -> ->.
  unfold exec, output. unfold_node. cbn.
  split; intros ->; cbn; repeat split; reflexivity.
Qed.

(** ** The phase timer *)

(** C2, as the code has it.  [phase_start_time] is set to the clock reading
    taken at the Takeoff-to-Figure8 transition and to the one taken after an
    accepted OFFBOARD request; the transitions to Land and to Complete leave
    it as it was. *)
Theorem phase_timer_resets (env : Oracle D) (w : World D) :
  (current_phase (vars w) = PHASE_TAKEOFF ->
   current_phase (vars (exec iteration env w)) = PHASE_FIGURE8 ->
   phase_start_time (vars (exec iteration env w)) = clock env (S (tick w))) /\
  (forall k : nat,
     In (k, EvSetMode "OFFBOARD") (output iteration env w) ->
     fst (set_mode_srv env k "OFFBOARD") && snd (set_mode_srv env k "OFFBOARD") = true ->
     phase_start_time (vars (exec iteration env w)) = clock env (S k)) /\
  (current_phase (vars (exec iteration env w)) <> current_phase (vars w) ->
   current_phase (vars w) <> PHASE_TAKEOFF ->
   phase_start_time (vars (exec iteration env w)) = phase_start_time (vars w)).
Proof.
  rewrite iteration_exec, iteration_output. cbn.
  split; [|split].
  - step_cases w; intros; bools; try reflexivity; try lia; try absurd_guard.
  - intros k. step_cases w; intros Hin Hok; cbn in Hin;
      repeat (destruct Hin as [Hin | Hin]; try discriminate Hin);
      try contradiction; try absurd_guard.
    all: try (injection Hin as <-; try reflexivity; congruence).
  - step_cases w; intros; bools; try reflexivity; try lia; try absurd_guard.
Qed.

(** ** The [connected] flag is not read by the loop *)

Lemma latest_agree (l1 l2 : list MavState) (d1 d2 : MavState) :
  Forall2 same_but_connected l1 l2 -> same_but_connected d1 d2 ->
  same_but_connected (fold_left (fun _ m => m) l1 d1) (fold_left (fun _ m => m) l2 d2).
Proof.
  intros Hl. revert d1 d2. induction Hl as [|a b l1 l2 Hab Hl IH]; intros d1 d2 Hd.
  - exact Hd.
  - cbn. apply IH. exact Hab.
Qed.

Lemma control_step_agree (env1 env2 : Oracle D) (w1 w2 : World D) :
  telemetry_agrees env1 env2 -> worlds_agree w1 w2 ->
  output control_step env1 w1 = output control_step env2 w2 /\
  worlds_agree (exec control_step env1 w1) (exec control_step env2 w2).
Proof.
  intros (Hc & _ & Hsm & Har & _ & _) Hw.
  unfold worlds_agree, same_but_connected in *.
  open_world w1. open_world w2.
  destruct Hw as (-> & (-> & ->) & -> & -> & -> & -> & -> & ->).
  unfold exec, output. unfold_node. cbn.
  repeat (repeat rewrite <- Hc; repeat rewrite <- Hsm; repeat rewrite <- Har;
          break_step).
  all: repeat rewrite <- Hc; repeat split; reflexivity.
Qed.

Lemma iteration_agree (env1 env2 : Oracle D) (w1 w2 : World D) :
  telemetry_agrees env1 env2 -> worlds_agree w1 w2 ->
  output iteration env1 w1 = output iteration env2 w2 /\
  worlds_agree (exec iteration env1 w1) (exec iteration env2 w2).
Proof.
  intros He Hw.
  destruct (control_step_agree env1 env2 w1 w2 He Hw) as [Ho Hs].
  rewrite !iteration_output, !iteration_exec. split; [exact Ho|].
  destruct He as (_ & _ & _ & _ & Hp & Hst).
  destruct Hs as (Ht & Hcs & Hlp & Hms & Hps & Hph & Hpo & Hlr).
  unfold worlds_agree. cbn. rewrite Ht, Hp, Hlp.
  repeat split; auto; apply latest_agree; auto; destruct Hcs; auto.
Qed.

Lemma bump_agree (w1 w2 : World D) : worlds_agree w1 w2 -> worlds_agree (bump w1) (bump w2).
Proof.
  unfold worlds_agree. cbn. intros (-> & Hrest). split; [reflexivity | exact Hrest].
Qed.

(** C8.  Two runs of the control loop that start from states, and receive
    telemetry, differing at most in [connected] make the same requests and
    publications at the same ticks and end in states that again differ at
    most in [connected]. *)
Theorem loop_ignores_connected (env1 env2 : Oracle D) (w1 w2 : World D) (fuel : nat)
  (Henv : telemetry_agrees env1 env2) (Hw : worlds_agree w1 w2) :
  output (main_loop fuel) env1 w1 = output (main_loop fuel) env2 w2 /\
  worlds_agree (exec (main_loop fuel) env1 w1) (exec (main_loop fuel) env2 w2).
Proof.
  revert w1 w2 Hw. induction fuel as [|fuel IH]; intros w1 w2 Hw.
  - split; [reflexivity | exact Hw].
  - rewrite !main_loop_output, !main_loop_exec.
    assert (Hok : ros_ok env1 (tick w1) = ros_ok env2 (tick w2)).
    { destruct Hw as (-> & _). apply Henv. }
    rewrite Hok. destruct (ros_ok env2 (tick w2)).
    + destruct (iteration_agree env1 env2 (bump w1) (bump w2) Henv (bump_agree _ _ Hw))
        as [Ho Hs].
      destruct (IH _ _ Hs) as [Ho' Hs'].
      rewrite Ho, Ho'. split; [reflexivity | exact Hs'].
    + split; [reflexivity | apply bump_agree; exact Hw].
Qed.

(** ** Passes of the Takeoff, Land and Complete phases *)

Lemma takeoff_pass (env : Oracle D) (w : World D) :
  armed (current_state (vars w)) = true ->
  mode (current_state (vars w)) = "OFFBOARD"%string ->
  current_phase (vars w) = PHASE_TAKEOFF ->
  pose (vars (exec iteration env w)) = takeoff_target /\
  map snd (output iteration env w) = [setpoint takeoff_target] /\
  last_request (vars (exec iteration env w)) = last_request (vars w) /\
  (dge (toSec (clock env (tick w) - phase_start_time (vars w))) (dlit (15 # 1)) = true ->
   current_phase (vars (exec iteration env w)) = PHASE_FIGURE8 /\
   phase_start_time (vars (exec iteration env w)) = clock env (S (tick w))) /\
  (dge (toSec (clock env (tick w) - phase_start_time (vars w))) (dlit (15 # 1)) = false ->
   current_phase (vars (exec iteration env w)) = PHASE_TAKEOFF /\
   phase_start_time (vars (exec iteration env w)) = phase_start_time (vars w)).
Proof.
  rewrite iteration_exec, iteration_output. cbn.
  open_world w. intros -> -> ->.
  unfold exec, output. unfold_node. cbn.
  destruct (dge _ _); cbn; repeat split; try discriminate; try reflexivity.
Qed.

Lemma land_pass (env : Oracle D) (w : World D) :
  armed (current_state (vars w)) = true ->
  mode (current_state (vars w)) = "OFFBOARD"%string ->
  current_phase (vars w) = PHASE_LAND ->
  current_phase (vars (exec iteration env w)) = PHASE_COMPLETE /\
  pose (vars (exec iteration env w)) = pose (vars w) /\
  output iteration env w = [(S (tick w), EvSetMode "AUTO.LAND")].
Proof.
  rewrite iteration_exec, iteration_output. cbn.
  open_world w. intros -> -> ->.
  unfold exec, output. unfold_node. cbn. repeat split.
Qed.

(** ** Start-up *)

Lemma wait_unroll (fuel : nat) (env : Oracle D) (w : World D) :
  wait_for_connection (S fuel) env w =
  if ros_ok env (tick w) && negb (connected (current_state (vars w)))
  then wait_for_connection fuel env (after_spin env (bump w))
  else (true, bump w, []).
Proof.
  cbn [wait_for_connection].
  unfold bind at 1. unfold ok, ask. unfold bind at 1. unfold gets at 1.
  destruct (ros_ok env (tick w) && negb (connected (current_state (vars (bump w))))) eqn:E;
    cbn in E; rewrite E; [|reflexivity].
  unfold bind at 1. unfold spinOnce, bind, ask, modify. cbn.
  rewrite state_cb_fold, local_pos_cb_fold. unfold sleep, ask. cbn.
  unfold after_spin. cbn.
  destruct (wait_for_connection fuel env _) as [[b w'] t]. reflexivity.
Qed.

Lemma warmup_unroll (fuel : nat) (i : Z) (env : Oracle D) (w : World D) :
  warmup (S fuel) i env w =
  if ros_ok env (tick w) && (i <? 100)
  then let '(u, w', t) := warmup fuel (i + 1) env (after_spin env (bump (bump w))) in
       (u, w', (S (tick w), setpoint (pose (vars w))) :: t)
  else (tt, bump w, []).
Proof.
  cbn [warmup].
  unfold bind at 1. unfold ok, ask.
  destruct (ros_ok env (tick w) && (i <? 100)); [|reflexivity].
  unfold bind at 1. unfold gets at 1. unfold bind at 1.
  unfold publish, bind, emit, ask. cbn.
  unfold spinOnce, bind, ask, modify. cbn.
  rewrite state_cb_fold, local_pos_cb_fold. unfold sleep, ask. cbn.
  unfold after_spin. cbn.
  destruct (warmup fuel (i + 1) env _) as [[b w'] t]. reflexivity.
Qed.


Lemma wait_for_connection_spec (fuel : nat) (env : Oracle D) (w : World D) :
  output (wait_for_connection fuel) env w = [] /\
  (tick w <= tick (exec (wait_for_connection fuel) env w))%nat /\
  pose (vars (exec (wait_for_connection fuel) env w)) = pose (vars w) /\
  current_phase (vars (exec (wait_for_connection fuel) env w)) = current_phase (vars w) /\
  (value (wait_for_connection fuel) env w = true ->
   connected (current_state (vars (exec (wait_for_connection fuel) env w))) = true \/
   ros_ok env (Nat.pred (tick (exec (wait_for_connection fuel) env w))) = false).
Proof.
  unfold output, exec, value.
  revert w. induction fuel as [|fuel IH]; intros w.
  - cbn. repeat split; try reflexivity; try lia; try discriminate.
  - rewrite wait_unroll.
    destruct (ros_ok env (tick w) && negb (connected (current_state (vars w)))) eqn:E.
    + destruct (IH (after_spin env (bump w))) as (Ho & Ht & Hp & Hph & Hv).
      repeat split; try assumption. cbn in Ht. lia.
    + cbn. repeat split; try reflexivity; try lia. intros _.
      apply andb_false_iff in E. destruct E as [E | E]; [right; exact E | left].
      apply negb_false_iff in E. exact E.
Qed.

Lemma warmup_spec (fuel : nat) (i : Z) (env : Oracle D) (w : World D) :
  Forall (fun ke => snd ke = setpoint (pose (vars w))) (output (warmup fuel i) env w) /\
  (Z.of_nat (List.length (output (warmup fuel i) env w)) <= Z.max 0 (100 - i)) /\
  (tick w <= tick (exec (warmup fuel i) env w))%nat /\
  pose (vars (exec (warmup fuel i) env w)) = pose (vars w) /\
  current_phase (vars (exec (warmup fuel i) env w)) = current_phase (vars w).
Proof.
  unfold output, exec.
  revert i w. induction fuel as [|fuel IH]; intros i w.
  - cbn [warmup ret fst snd List.length]. repeat split; try constructor; lia.
  - rewrite warmup_unroll. destruct (ros_ok env (tick w) && (i <? 100)) eqn:E.
    + destruct (IH (i + 1) (after_spin env (bump (bump w)))) as (Ho & Hl & Ht & Hp & Hph).
      destruct (warmup fuel (i + 1) env (after_spin env (bump (bump w)))) as [[u w'] t].
      cbn [fst snd List.length] in *. unfold after_spin, bump in Ho, Ht, Hp, Hph.
      cbn [vars tick pose current_phase set_current_local_pose set_current_state] in *.
      apply andb_prop in E. destruct E as [_ E]. apply Z.ltb_lt in E.
      repeat split; try assumption; try lia.
      constructor; [reflexivity | exact Ho].
    + cbn [fst snd List.length bump vars tick]. repeat split; try constructor; lia.
Qed.

(** With [ros::ok()] true up to the end of the warm-up, all of its turns are
    taken. *)
Lemma warmup_full (env : Oracle D) (bound : nat)
  (Hok : forall j : nat, (j < bound)%nat -> ros_ok env j = true)
  (fuel : nat) (i : Z) (w : World D) :
  (tick (exec (warmup fuel i) env w) <= bound)%nat ->
  0 <= i <= 100 -> 100 - i < Z.of_nat fuel ->
  Z.of_nat (List.length (output (warmup fuel i) env w)) = 100 - i.
Proof.
  unfold output, exec.
  revert i w. induction fuel as [|fuel IH]; intros i w Hb Hi Hf.
  - cbn [Z.of_nat] in Hf. lia.
  - pose proof (warmup_spec (S fuel) i env w) as (_ & _ & Ht & _).
    unfold exec in Ht. revert Hb Ht. rewrite warmup_unroll.
    destruct (ros_ok env (tick w) && (i <? 100)) eqn:E.
    + pose proof (IH (i + 1) (after_spin env (bump (bump w)))) as IH'.
      destruct (warmup fuel (i + 1) env (after_spin env (bump (bump w)))) as [[u w'] t].
      cbn [fst snd List.length] in *. intros Hb _.
      apply andb_prop in E. destruct E as [_ E]. apply Z.ltb_lt in E.
      rewrite Nat2Z.inj_succ, IH'; lia.
    + cbn [fst snd List.length bump vars tick]. intros Hb _.
      apply andb_false_iff in E. destruct E as [E | E].
      * rewrite Hok in E by lia. discriminate.
      * apply Z.ltb_ge in E. cbn [Z.of_nat]. lia.
Qed.

Lemma startup_unroll (env : Oracle D) (w : World D) :
  startup env w =
  let w0 := mkWorld (set_pose takeoff_target (vars w)) (tick w) in
  let w1 := exec (warmup 101 0) env w0 in
  (tt,
   mkWorld (set_phase_start_time (clock env (S (S (tick w1))))
              (set_mission_start_time (clock env (S (tick w1)))
                 (set_last_request (clock env (tick w1)) (vars w1))))
           (S (S (S (tick w1)))),
   output (warmup 101 0) env w0).
Proof.
  unfold startup, takeoff_target, exec, output.
  generalize 101%nat. intros fuel.
  unfold bind at 1. unfold modify at 1. unfold bind at 1.
  destruct (warmup fuel 0 env _) as [[u w1] t].
  unfold bind, now, ask, modify. cbn. rewrite app_nil_r. reflexivity.
Qed.

(** ** [main] as start-up followed by the loop *)

Lemma main_output (env : Oracle D) (fuel_wait fuel_loop : nat) :
  output (main fuel_wait fuel_loop) env initial_world =
  if value (wait_for_connection fuel_wait) env initial_world
  then output startup env (exec (wait_for_connection fuel_wait) env initial_world) ++
       output (main_loop fuel_loop) env (loop_entry env fuel_wait)
  else [].
Proof.
  unfold main. rewrite output_bind.
  destruct (wait_for_connection_spec fuel_wait env initial_world) as (-> & _).
  cbn [app].
  destruct (value (wait_for_connection fuel_wait) env initial_world).
  - rewrite output_bind. reflexivity.
  - reflexivity.
Qed.

Lemma main_exec_started (env : Oracle D) (fuel_wait fuel_loop : nat) :
  value (wait_for_connection fuel_wait) env initial_world = true ->
  exec (main fuel_wait fuel_loop) env initial_world =
  exec (main_loop fuel_loop) env (loop_entry env fuel_wait).
Proof.
  intros Hv. unfold main. rewrite exec_bind, Hv, exec_bind. reflexivity.
Qed.

(** ** Every set-point is at the take-off altitude *)

Lemma iteration_altitude (env : Oracle D) (w : World D) :
  pos_z (pose (vars w)) = TAKEOFF_Z ->
  pos_z (pose (vars (exec iteration env w))) = TAKEOFF_Z /\
  Forall at_takeoff_altitude (map snd (output iteration env w)).
Proof.
  rewrite iteration_exec, iteration_output. cbn.
  step_cases w; intros Hz; split; try assumption; try reflexivity;
    repeat constructor; assumption.
Qed.

Lemma main_loop_altitude (n : nat) (env : Oracle D) (w : World D) :
  pos_z (pose (vars w)) = TAKEOFF_Z ->
  Forall at_takeoff_altitude (map snd (output (main_loop n) env w)).
Proof.
  revert w. induction n as [|n IH]; intros w Hz; [constructor|].
  rewrite main_loop_output. destruct (ros_ok env (tick w)); [|constructor].
  destruct (iteration_altitude env (bump w) Hz) as [Hz' Ho].
  rewrite map_app. apply Forall_app. split; [exact Ho | apply IH; exact Hz'].
Qed.

Lemma startup_output (env : Oracle D) (w : World D) :
  Forall (fun ke => snd ke = setpoint takeoff_target) (output startup env w) /\
  (List.length (output startup env w) <= 100)%nat /\
  pose (vars (exec startup env w)) = takeoff_target /\
  current_phase (vars (exec startup env w)) = current_phase (vars w).
Proof.
  unfold output at 1 2, exec at 1 2. rewrite startup_unroll. cbn [fst snd].
  set (w0 := mkWorld (set_pose takeoff_target (vars w)) (tick w)).
  destruct (warmup_spec 101 0 env w0) as (Ho & Hl & _ & Hp & Hph).
  cbn [vars pose set_phase_start_time set_mission_start_time set_last_request
       current_phase].
  repeat split; try assumption. lia.
Qed.

(** X2.  Every set-point published by [main], in the warm-up and in the
    loop, is at the take-off altitude, for every environment and any number
    of passes. *)
Theorem setpoints_at_takeoff_altitude (env : Oracle D) (fuel_wait fuel_loop : nat) :
  Forall at_takeoff_altitude
         (map snd (output (main fuel_wait fuel_loop) env initial_world)).
Proof.
  rewrite main_output.
  destruct (value (wait_for_connection fuel_wait) env initial_world); [|constructor].
  rewrite map_app. apply Forall_app. split.
  - destruct (startup_output env (exec (wait_for_connection fuel_wait) env initial_world))
      as (Ho & _).
    apply Forall_map. eapply Forall_impl; [|exact Ho].
    intros [k e] He. cbn in He. subst e. reflexivity.
  - apply main_loop_altitude. unfold loop_entry.
    destruct (startup_output env (exec (wait_for_connection fuel_wait) env initial_world))
      as (_ & _ & -> & _).
    reflexivity.
Qed.

(** X3.  Start-up publishes the take-off point and nothing else, at most 100
    times, and exactly 100 times when [ros::ok()] stays true. *)
Theorem warmup_streams_takeoff_point (env : Oracle D) (w : World D) :
  Forall (fun ke => snd ke = setpoint takeoff_target) (output startup env w) /\
  (List.length (output startup env w) <= 100)%nat /\
  ((forall j : nat, ros_ok env j = true) ->
   List.length (output startup env w) = 100%nat).
Proof.
  destruct (startup_output env w) as (Ho & Hl & _).
  split; [exact Ho|]. split; [exact Hl|].
  intros Hok. unfold output. rewrite startup_unroll. cbn [snd].
  set (w0 := mkWorld (set_pose takeoff_target (vars w)) (tick w)).
  pose proof (warmup_full env (tick (exec (warmup 101 0) env w0))
                (fun j _ => Hok j) 101 0 w0 (Nat.le_refl _)) as Hfull.
  lia.
Qed.

(** ** The landing request *)

Lemma iteration_land_request (env : Oracle D) (w : World D) :
  select is_land_request (output iteration env w) = [] \/
  (current_phase (vars w) = PHASE_LAND /\
   current_phase (vars (exec iteration env w)) = PHASE_COMPLETE /\
   List.length (select is_land_request (output iteration env w)) = 1%nat).
Proof.
  rewrite iteration_exec, iteration_output. cbn.
  step_cases w; bools; try (left; reflexivity); right; repeat split; lia.
Qed.

Lemma iteration_complete (env : Oracle D) (w : World D) :
  current_phase (vars w) = PHASE_COMPLETE ->
  current_phase (vars (exec iteration env w)) = PHASE_COMPLETE /\
  pose (vars (exec iteration env w)) = pose (vars w) /\
  Forall (fun ke => is_command (snd ke) = true) (output iteration env w).
Proof.
  rewrite iteration_exec, iteration_output. cbn.
  step_cases w; intros ->; try discriminate; repeat split;
    repeat constructor.
Qed.

Lemma main_loop_complete (n : nat) (env : Oracle D) (w : World D) :
  current_phase (vars w) = PHASE_COMPLETE ->
  current_phase (vars (exec (main_loop n) env w)) = PHASE_COMPLETE /\
  pose (vars (exec (main_loop n) env w)) = pose (vars w) /\
  Forall (fun ke => is_command (snd ke) = true) (output (main_loop n) env w).
Proof.
  revert w. induction n as [|n IH]; intros w Hw.
  - repeat split; [exact Hw | constructor].
  - rewrite main_loop_exec, main_loop_output. destruct (ros_ok env (tick w)).
    + destruct (iteration_complete env (bump w) Hw) as (Hph & Hpo & Ho).
      destruct (IH _ Hph) as (Hph' & Hpo' & Ho').
      repeat split; [exact Hph' | rewrite Hpo', Hpo; reflexivity |].
      apply Forall_app. split; assumption.
    + repeat split; [exact Hw | constructor].
Qed.

Lemma commands_not_land (tr : Trace D) :
  Forall (fun ke => is_command (snd ke) = true) tr ->
  select is_land_request tr = [] /\ select is_publish tr = [].
Proof.
  induction 1 as [|[k e] tr He _ [IH1 IH2]]; [split; reflexivity|].
  cbn in *. destruct e as [x y z | m | v]; cbn in *; try discriminate.
  - apply String.eqb_eq in He. subst m. cbn. split; assumption.
  - split; assumption.
Qed.

Lemma main_loop_land_once (n : nat) (env : Oracle D) (w : World D) :
  (List.length (select is_land_request (output (main_loop n) env w)) <= 1)%nat.
Proof.
  revert w. induction n as [|n IH]; intros w; [cbn; lia|].
  rewrite main_loop_output. destruct (ros_ok env (tick w)); [|cbn; lia].
  rewrite select_app, length_app.
  destruct (iteration_land_request env (bump w)) as [-> | (_ & Hph & ->)].
  - apply IH.
  - destruct (main_loop_complete n env _ Hph) as (_ & _ & Ho).
    apply commands_not_land in Ho. destruct Ho as [-> _]. cbn. lia.
Qed.

(** X4.  However long the loop runs and from whatever state, AUTO.LAND is
    requested at most once.  The pass that evaluates the Land phase makes
    that request and nothing else and moves to Complete whatever the answer
    is, and the request is never made again. *)
Theorem land_requested_once (env : Oracle D) (w : World D) :
  (forall n : nat,
     (List.length (select is_land_request (output (main_loop n) env w)) <= 1)%nat) /\
  (armed (current_state (vars w)) = true ->
   mode (current_state (vars w)) = "OFFBOARD"%string ->
   current_phase (vars w) = PHASE_LAND ->
   output iteration env w = [(S (tick w), EvSetMode "AUTO.LAND")] /\
   current_phase (vars (exec iteration env w)) = PHASE_COMPLETE /\
   forall n : nat,
     select is_land_request (output (main_loop n) env (exec iteration env w)) = []).
Proof.
  split; [intros n; apply main_loop_land_once|].
  intros Harmed Hmode Hphase.
  destruct (land_pass env w Harmed Hmode Hphase) as (Hph & _ & Ho).
  split; [exact Ho|]. split; [exact Hph|].
  intros n. destruct (main_loop_complete n env _ Hph) as (_ & _ & Hc).
  apply commands_not_land in Hc. apply Hc.
Qed.

(** X7.  Complete is final: the phase and the target do not change any
    more, no set-point is published and no landing is requested; the only
    outputs left are the OFFBOARD and arming requests of lines 88-101. *)
Theorem complete_is_absorbing (env : Oracle D) (w : World D) (n : nat)
  (Hphase : current_phase (vars w) = PHASE_COMPLETE) :
  current_phase (vars (exec (main_loop n) env w)) = PHASE_COMPLETE /\
  pose (vars (exec (main_loop n) env w)) = pose (vars w) /\
  Forall (fun ke => is_command (snd ke) = true) (output (main_loop n) env w) /\
  select is_publish (output (main_loop n) env w) = [] /\
  select is_land_request (output (main_loop n) env w) = [].
Proof.
  destruct (main_loop_complete n env w Hphase) as (Hph & Hpo & Hc).
  destruct (commands_not_land _ Hc) as [Hland Hpub].
  repeat split; assumption.
Qed.

(** ** The warm-up comes before any request *)

Lemma split_after_prefix {A} (P : A -> Prop) (l1 l2 pre post : list A) (x : A) :
  Forall P l1 -> ~ P x -> l1 ++ l2 = pre ++ x :: post ->
  exists pre', pre = l1 ++ pre' /\ l2 = pre' ++ x :: post.
Proof.
  intros Hl Hx. revert pre. induction Hl as [|a l1 Ha Hl IH]; intros pre E.
  - exists pre. split; [reflexivity | exact E].
  - destruct pre as [|b pre]; cbn in E.
    + injection E as -> _. contradiction.
    + injection E as <- E. destruct (IH pre E) as (pre' & -> & ->).
      exists pre'. split; reflexivity.
Qed.

Lemma setpoints_select (p : Position D) (tr : Trace D) :
  Forall (fun ke => snd ke = setpoint p) tr -> select is_publish tr = tr.
Proof.
  induction 1 as [|[k e] tr He _ IH]; [reflexivity|].
  unfold select in *. cbn in He. subst e. cbn. rewrite IH. reflexivity.
Qed.

Lemma startup_tick (env : Oracle D) (w : World D) :
  tick (exec startup env w) =
  S (S (S (tick (exec (warmup 101 0) env
                      (mkWorld (set_pose takeoff_target (vars w)) (tick w)))))).
Proof. unfold exec at 1. rewrite startup_unroll. reflexivity. Qed.

(** X5.  If [ros::ok()] does not become true again once it was false, then
    every service request of a run of [main] comes after at least 100
    published set-points. *)
Theorem warmup_precedes_requests (env : Oracle D) (fuel_wait fuel_loop : nat)
  (pre post : Trace D) (k : nat) (e : Event D)
  (Hstable : ok_stable env)
  (Htrace : output (main fuel_wait fuel_loop) env initial_world = pre ++ (k, e) :: post)
  (Hreq : is_request e = true) :
  (100 <= List.length (select is_publish pre))%nat.
Proof.
  rewrite main_output in Htrace.
  destruct (value (wait_for_connection fuel_wait) env initial_world).
  2: { destruct pre; discriminate Htrace. }
  set (w1 := exec (wait_for_connection fuel_wait) env initial_world) in *.
  destruct (startup_output env w1) as (Hsp & _).
  assert (Hnot : ~ snd (k, e) = setpoint takeoff_target).
  { cbn [snd]. intros E. rewrite E in Hreq. discriminate Hreq. }
  destruct (split_after_prefix _ _ _ _ _ _ Hsp Hnot Htrace) as (pre' & -> & Hloop).
  assert (Hgo : ros_ok env (tick (loop_entry env fuel_wait)) = true).
  { destruct fuel_loop as [|fuel_loop]; [destruct pre'; discriminate Hloop|].
    rewrite main_loop_output in Hloop.
    destruct (ros_ok env (tick (loop_entry env fuel_wait)));
      [reflexivity | destruct pre'; discriminate Hloop]. }
  assert (Hlen : Z.of_nat (List.length (output startup env w1)) = 100 - 0).
  { unfold output. rewrite startup_unroll. cbn [snd].
    apply (warmup_full env (tick (loop_entry env fuel_wait))).
    - intros j Hj. apply (Hstable j (tick (loop_entry env fuel_wait))); [lia | exact Hgo].
    - unfold loop_entry. fold w1. rewrite startup_tick. lia.
    - lia.
    - cbn. lia. }
  rewrite select_app, length_app, (setpoints_select _ _ Hsp). lia.
Qed.

(** ** Leaving the wait for the connection *)

(** X6.  When the wait of lines 55-58 is left, the vehicle is connected or
    the last [ros::ok()] was false; the wait publishes and requests nothing and
    leaves the target and the phase alone. *)
Theorem connection_wait_exit (fuel : nat) (env : Oracle D) (w : World D)
  (Hleft : value (wait_for_connection fuel) env w = true) :
  (connected (current_state (vars (exec (wait_for_connection fuel) env w))) = true \/
   ros_ok env (Nat.pred (tick (exec (wait_for_connection fuel) env w))) = false) /\
  output (wait_for_connection fuel) env w = [] /\
  pose (vars (exec (wait_for_connection fuel) env w)) = pose (vars w) /\
  current_phase (vars (exec (wait_for_connection fuel) env w)) = current_phase (vars w).
Proof.
  destruct (wait_for_connection_spec fuel env w) as (Ho & _ & Hp & Hph & Hv).
  split; [apply Hv; exact Hleft|]. repeat split; assumption.
Qed.

(** ** The callbacks keep the latest message *)

Lemma last_default {A} (l : list A) (a d d' : A) : last (a :: l) d = last (a :: l) d'.
Proof.
  revert a. induction l as [|b l IH]; intros a; [reflexivity|].
  change (last (b :: l) d = last (b :: l) d'). apply IH.
Qed.

Lemma latest_is_last {A} (l : list A) (d : A) :
  fold_left (fun _ m => m) l d = last l d.
Proof.
  revert d. induction l as [|a l IH]; intros d; [reflexivity|].
  cbn [fold_left]. rewrite IH. destruct l as [|b l]; [reflexivity|].
  change (last (b :: l) a = last (b :: l) d). apply last_default.
Qed.

(** X8.  [spinOnce] leaves in [current_state] and [current_local_pose] the
    last message delivered to [state_cb] and [local_pos_cb] (the old value when
    none was delivered), changes no other variable and produces no output. *)
Theorem spinOnce_keeps_latest (env : Oracle D) (w : World D) :
  current_state (vars (exec spinOnce env w)) =
    last (state_msgs env (tick w)) (current_state (vars w)) /\
  current_local_pose (vars (exec spinOnce env w)) =
    last (pose_msgs env (S (tick w))) (current_local_pose (vars w)) /\
  pose (vars (exec spinOnce env w)) = pose (vars w) /\
  current_phase (vars (exec spinOnce env w)) = current_phase (vars w) /\
  phase_start_time (vars (exec spinOnce env w)) = phase_start_time (vars w) /\
  last_request (vars (exec spinOnce env w)) = last_request (vars w) /\
  mission_start_time (vars (exec spinOnce env w)) = mission_start_time (vars w) /\
  output spinOnce env w = [].
Proof.
  rewrite spinOnce_exec. cbn. rewrite !latest_is_last. repeat split.
Qed.

(** ** The timers hold past clock readings *)

Lemma iteration_timers (env : Oracle D) (w : World D) :
  (phase_start_time (vars (exec iteration env w)) = phase_start_time (vars w) \/
   exists j : nat, (j < tick (exec iteration env w))%nat /\
                   phase_start_time (vars (exec iteration env w)) = clock env j) /\
  (last_request (vars (exec iteration env w)) = last_request (vars w) \/
   exists j : nat, (j < tick (exec iteration env w))%nat /\
                   last_request (vars (exec iteration env w)) = clock env j).
Proof.
  rewrite iteration_exec. cbn.
  step_cases w; split;
    first [ left; reflexivity
          | right; eexists; split; [|reflexivity]; lia ].
Qed.

Lemma main_loop_timers (n : nat) (env : Oracle D) (w : World D) :
  (exists j : nat, (j < tick w)%nat /\ phase_start_time (vars w) = clock env j) ->
  (exists j : nat, (j < tick w)%nat /\ last_request (vars w) = clock env j) ->
  (exists j : nat, (j < tick (exec (main_loop n) env w))%nat /\
     phase_start_time (vars (exec (main_loop n) env w)) = clock env j) /\
  (exists j : nat, (j < tick (exec (main_loop n) env w))%nat /\
     last_request (vars (exec (main_loop n) env w)) = clock env j).
Proof.
  revert w. induction n as [|n IH]; intros w Hps Hlr; [split; assumption|].
  rewrite main_loop_exec. destruct (ros_ok env (tick w)).
  - pose proof (iteration_tick env (bump w)) as Ht. cbn in Ht.
    destruct (iteration_timers env (bump w)) as [Hps' Hlr'].
    apply IH.
    + destruct Hps' as [-> | Hps']; [|exact Hps'].
      destruct Hps as (j & Hj & E). exists j. split; [lia | exact E].
    + destruct Hlr' as [-> | Hlr']; [|exact Hlr'].
      destruct Hlr as (j & Hj & E). exists j. split; [lia | exact E].
  - destruct Hps as (j & Hj & E). destruct Hlr as (j' & Hj' & E').
    split; [exists j | exists j']; (split; [cbn; lia | assumption]).
Qed.

(** X11.  With a clock that never runs backwards, the two durations the loop
    computes, the time in phase and the time since the last request, are never
    negative: after start-up and any number of passes, [phase_start_time] and
    [last_request] are at most any later clock reading. *)
Theorem elapsed_times_nonnegative (env : Oracle D) (fuel_wait n k : nat)
  (Hmono : monotone (clock env))
  (Hstart : value (wait_for_connection fuel_wait) env initial_world = true)
  (Hlater : (tick (exec (main fuel_wait n) env initial_world) <= k)%nat) :
  0 <= clock env k - phase_start_time (vars (exec (main fuel_wait n) env initial_world)) /\
  0 <= clock env k - last_request (vars (exec (main fuel_wait n) env initial_world)).
Proof.
  rewrite (main_exec_started env fuel_wait n Hstart) in *.
  set (w1 := exec (wait_for_connection fuel_wait) env initial_world).
  assert (Hentry :
    (exists j : nat, (j < tick (loop_entry env fuel_wait))%nat /\
       phase_start_time (vars (loop_entry env fuel_wait)) = clock env j) /\
    (exists j : nat, (j < tick (loop_entry env fuel_wait))%nat /\
       last_request (vars (loop_entry env fuel_wait)) = clock env j)).
  { unfold loop_entry, exec at 1 3 5 7. rewrite startup_unroll. cbn.
    split; eexists; (split; [|reflexivity]); lia. }
  destruct Hentry as [Hps Hlr].
  destruct (main_loop_timers n env _ Hps Hlr) as [(j & Hj & ->) (j' & Hj' & ->)].
  assert (H1 : clock env j <= clock env k) by (apply Hmono; lia).
  assert (H2 : clock env j' <= clock env k) by (apply Hmono; lia).
  clear - H1 H2. lia.
Qed.

(** ** Inputs that are not used *)

Lemma after_spin_unused (env1 env2 : Oracle D) (w1 w2 : World D) :
  inputs_agree env1 env2 -> same_but_local_pose w1 w2 ->
  same_but_local_pose (after_spin env1 w1) (after_spin env2 w2).
Proof.
  intros (_ & _ & _ & Hs) (Ht & Hcs & Hrest).
  unfold same_but_local_pose, after_spin. cbn. rewrite Ht, Hs, Hcs.
  repeat split; apply Hrest.
Qed.

Lemma bump_unused (w1 w2 : World D) :
  same_but_local_pose w1 w2 -> same_but_local_pose (bump w1) (bump w2).
Proof.
  unfold same_but_local_pose. cbn. intros (-> & Hrest). split; [reflexivity | exact Hrest].
Qed.

Lemma control_step_unused (env1 env2 : Oracle D) (w1 w2 : World D) :
  inputs_agree env1 env2 -> same_but_local_pose w1 w2 ->
  output control_step env1 w1 = output control_step env2 w2 /\
  same_but_local_pose (exec control_step env1 w1) (exec control_step env2 w2).
Proof.
  intros (Hc & _ & Hsm & _) Hw.
  unfold same_but_local_pose in *.
  destruct w1 as [[st1 lp1 ms1 ps1 ph1 po1 lr1] k1].
  destruct w2 as [[st2 lp2 ms2 ps2 ph2 po2 lr2] k2].
  cbn in Hw. destruct Hw as (-> & -> & -> & -> & -> & -> & ->).
  destruct st2 as [cn ar md].
  unfold exec, output. unfold_node. cbn.
  repeat (repeat rewrite <- Hc; repeat rewrite <- Hsm; break_step).
  all: repeat rewrite <- Hc; repeat split; reflexivity.
Qed.

Lemma iteration_unused (env1 env2 : Oracle D) (w1 w2 : World D) :
  inputs_agree env1 env2 -> same_but_local_pose w1 w2 ->
  output iteration env1 w1 = output iteration env2 w2 /\
  same_but_local_pose (exec iteration env1 w1) (exec iteration env2 w2).
Proof.
  intros He Hw.
  destruct (control_step_unused env1 env2 w1 w2 He Hw) as [Ho Hs].
  rewrite !iteration_output. split; [exact Ho|].
  rewrite !iteration_exec. apply (after_spin_unused env1 env2 _ _ He Hs).
Qed.

Lemma main_loop_unused (n : nat) (env1 env2 : Oracle D) (w1 w2 : World D) :
  inputs_agree env1 env2 -> same_but_local_pose w1 w2 ->
  output (main_loop n) env1 w1 = output (main_loop n) env2 w2 /\
  same_but_local_pose (exec (main_loop n) env1 w1) (exec (main_loop n) env2 w2).
Proof.
  intros He. revert w1 w2. induction n as [|n IH]; intros w1 w2 Hw.
  - split; [reflexivity | exact Hw].
  - rewrite !main_loop_output, !main_loop_exec.
    assert (Hok : ros_ok env1 (tick w1) = ros_ok env2 (tick w2)).
    { destruct Hw as (-> & _). apply He. }
    rewrite Hok. destruct (ros_ok env2 (tick w2)).
    + destruct (iteration_unused env1 env2 _ _ He (bump_unused _ _ Hw)) as [Ho Hs].
      destruct (IH _ _ Hs) as [Ho' Hs'].
      rewrite Ho, Ho'. split; [reflexivity | exact Hs'].
    + split; [reflexivity | apply bump_unused; exact Hw].
Qed.

Lemma wait_unused (fuel : nat) (env1 env2 : Oracle D) (w1 w2 : World D) :
  inputs_agree env1 env2 -> same_but_local_pose w1 w2 ->
  value (wait_for_connection fuel) env1 w1 = value (wait_for_connection fuel) env2 w2 /\
  same_but_local_pose (exec (wait_for_connection fuel) env1 w1)
                      (exec (wait_for_connection fuel) env2 w2).
Proof.
  intros He. unfold value, exec.
  revert w1 w2. induction fuel as [|fuel IH]; intros w1 w2 Hw.
  - split; [reflexivity | exact Hw].
  - rewrite !wait_unroll.
    assert (Hc : ros_ok env1 (tick w1) && negb (connected (current_state (vars w1))) =
                 ros_ok env2 (tick w2) && negb (connected (current_state (vars w2)))).
    { destruct Hw as (-> & -> & _). destruct He as (_ & -> & _). reflexivity. }
    rewrite Hc. destruct (ros_ok env2 (tick w2) && _).
    + apply IH. apply (after_spin_unused env1 env2 _ _ He). apply bump_unused. exact Hw.
    + split; [reflexivity | apply bump_unused; exact Hw].
Qed.

Lemma warmup_unused (fuel : nat) (i : Z) (env1 env2 : Oracle D) (w1 w2 : World D) :
  inputs_agree env1 env2 -> same_but_local_pose w1 w2 ->
  output (warmup fuel i) env1 w1 = output (warmup fuel i) env2 w2 /\
  same_but_local_pose (exec (warmup fuel i) env1 w1) (exec (warmup fuel i) env2 w2).
Proof.
  intros He. unfold output, exec.
  revert i w1 w2. induction fuel as [|fuel IH]; intros i w1 w2 Hw.
  - split; [reflexivity | exact Hw].
  - rewrite !warmup_unroll.
    assert (Hc : ros_ok env1 (tick w1) = ros_ok env2 (tick w2)).
    { destruct Hw as (-> & _). apply He. }
    rewrite Hc. destruct (ros_ok env2 (tick w2) && (i <? 100)).
    + destruct (IH (i + 1) (after_spin env1 (bump (bump w1)))
                  (after_spin env2 (bump (bump w2)))) as [Ho Hs].
      { apply (after_spin_unused env1 env2 _ _ He). do 2 apply bump_unused. exact Hw. }
      destruct (warmup fuel (i + 1) env1 _) as [[u1 w1'] t1].
      destruct (warmup fuel (i + 1) env2 _) as [[u2 w2'] t2].
      cbn [fst snd] in *. subst t2.
      destruct Hw as (-> & _ & _ & _ & _ & -> & _).
      split; [reflexivity | exact Hs].
    + split; [reflexivity | apply bump_unused; exact Hw].
Qed.

Lemma startup_unused (env1 env2 : Oracle D) (w1 w2 : World D) :
  inputs_agree env1 env2 -> same_but_local_pose w1 w2 ->
  output startup env1 w1 = output startup env2 w2 /\
  same_but_local_pose (exec startup env1 w1) (exec startup env2 w2).
Proof.
  intros He Hw. unfold output, exec. rewrite !startup_unroll. cbn [fst snd].
  destruct (warmup_unused 101 0 env1 env2
              (mkWorld (set_pose takeoff_target (vars w1)) (tick w1))
              (mkWorld (set_pose takeoff_target (vars w2)) (tick w2)) He)
    as [Ho (Ht & Hcs & Hms & Hps & Hph & Hpo & Hlr)].
  { destruct Hw as (Ht & Hcs & Hms & Hps & Hph & Hpo & Hlr).
    unfold same_but_local_pose.
    cbn [vars tick current_state mission_start_time phase_start_time current_phase
         pose last_request set_pose].
    repeat split; assumption. }
  split; [exact Ho|].
  destruct He as (Hc & _).
  unfold same_but_local_pose.
  cbn [vars tick current_state mission_start_time phase_start_time current_phase
       pose last_request set_phase_start_time set_mission_start_time
       set_last_request].
  rewrite Ht, !Hc. repeat split; assumption.
Qed.

(** X9.  The position feed, the answers to arming requests and the answers to
    mode requests other than OFFBOARD have no influence: two runs of [main]
    that differ only in them produce the same trace and end in states that
    differ at most in [current_local_pose]. *)
Theorem unused_inputs (env1 env2 : Oracle D) (fuel_wait fuel_loop : nat)
  (Hagree : inputs_agree env1 env2) :
  output (main fuel_wait fuel_loop) env1 initial_world =
  output (main fuel_wait fuel_loop) env2 initial_world /\
  same_but_local_pose (exec (main fuel_wait fuel_loop) env1 initial_world)
                      (exec (main fuel_wait fuel_loop) env2 initial_world).
Proof.
  assert (H0 : same_but_local_pose (@initial_world D _) initial_world)
    by (unfold same_but_local_pose; repeat split).
  destruct (wait_unused fuel_wait env1 env2 _ _ Hagree H0) as [Hv Hw].
  unfold main. rewrite !output_bind, !exec_bind, Hv.
  destruct (wait_for_connection_spec fuel_wait env1 initial_world) as (-> & _).
  destruct (wait_for_connection_spec fuel_wait env2 initial_world) as (-> & _).
  cbn [app].
  destruct (value (wait_for_connection fuel_wait) env2 initial_world).
  - destruct (startup_unused env1 env2 _ _ Hagree Hw) as [Ho Hs].
    destruct (main_loop_unused fuel_loop env1 env2 _ _ Hagree Hs) as [Ho' Hs'].
    rewrite !output_bind, !exec_bind, Ho, Ho'. split; [reflexivity | exact Hs'].
  - split; [reflexivity | exact Hw].
Qed.

(** ** Where the target can be *)

Lemma iteration_pose_cases (env : Oracle D) (w : World D) :
  (pose (vars (exec iteration env w)) = pose (vars w) \/
   pose (vars (exec iteration env w)) = takeoff_target \/
   exists t : D, pose (vars (exec iteration env w)) = figure8_target t) /\
  Forall (fun ke => is_publish (snd ke) = true ->
                    snd ke = setpoint (pose (vars (exec iteration env w))))
         (output iteration env w).
Proof.
  rewrite iteration_exec, iteration_output. cbn.
  step_cases w; split;
    try (repeat constructor; cbn; intros; try discriminate; reflexivity);
    first [ left; reflexivity
          | right; left; reflexivity
          | right; right; eexists; reflexivity ].
Qed.

Lemma main_loop_pose_invariant (P : Position D -> Prop)
  (Htakeoff : P takeoff_target) (Hfigure : forall t : D, P (figure8_target t))
  (n : nat) (env : Oracle D) (w : World D) :
  P (pose (vars w)) ->
  P (pose (vars (exec (main_loop n) env w))) /\
  Forall (fun ke => is_publish (snd ke) = true ->
                    exists p : Position D, P p /\ snd ke = setpoint p)
         (output (main_loop n) env w).
Proof.
  revert w. induction n as [|n IH]; intros w Hw; [split; [exact Hw | constructor]|].
  rewrite main_loop_exec, main_loop_output.
  destruct (ros_ok env (tick w)); [|split; [exact Hw | constructor]].
  destruct (iteration_pose_cases env (bump w)) as [Hcases Ho].
  assert (Hw' : P (pose (vars (exec iteration env (bump w))))).
  { destruct Hcases as [-> | [-> | [t ->]]]; auto. }
  destruct (IH _ Hw') as [Hend Ho'].
  split; [exact Hend|]. apply Forall_app. split; [|exact Ho'].
  eapply Forall_impl; [|exact Ho]. cbn. intros ke Hke Hpub.
  exists (pose (vars (exec iteration env (bump w)))). split; [exact Hw' | apply Hke; exact Hpub].
Qed.

(** ** A vehicle that stays armed and in OFFBOARD mode *)

Lemma control_step_state (env : Oracle D) (w : World D) :
  current_state (vars (exec control_step env w)) = current_state (vars w).
Proof. step_cases w; reflexivity. Qed.

Lemma latest_keeps {A} (P : A -> Prop) (l : list A) (d : A) :
  Forall P l -> P d -> P (fold_left (fun _ m => m) l d).
Proof.
  intros Hl. revert d. induction Hl as [|a l Ha Hl IH]; intros d Hd; [exact Hd|].
  cbn. apply IH. exact Ha.
Qed.

Lemma iteration_flying (env : Oracle D) (w : World D) :
  (forall k : nat, Forall flying_state (state_msgs env k)) ->
  flying_state (current_state (vars w)) ->
  flying_state (current_state (vars (exec iteration env w))).
Proof.
  intros Hmsgs Hw. rewrite iteration_exec. cbn.
  apply latest_keeps; [apply Hmsgs|]. rewrite control_step_state. exact Hw.
Qed.

Lemma figure8_pass_timer (env : Oracle D) (w : World D) :
  armed (current_state (vars w)) = true ->
  mode (current_state (vars w)) = "OFFBOARD"%string ->
  current_phase (vars w) = PHASE_FIGURE8 ->
  phase_start_time (vars (exec iteration env w)) = phase_start_time (vars w).
Proof.
  rewrite iteration_exec. cbn.
  open_world w. intros -> -> ->.
  unfold exec. unfold_node. cbn.
  destruct (dge _ _); reflexivity.
Qed.

Lemma main_loop_add (env : Oracle D) (n m : nat) (w : World D) :
  (forall k : nat, ros_ok env k = true) ->
  exec (main_loop (n + m)) env w = exec (main_loop m) env (exec (main_loop n) env w).
Proof.
  intros Hok. revert w. induction n as [|n IH]; intros w; [reflexivity|].
  cbn [Nat.add]. rewrite !main_loop_exec, Hok. apply IH.
Qed.

End NodeFacts.

(** * Exact arithmetic *)

Lemma real_dge (a b : R) : dge a b = true <-> (b <= a)%R.
Proof.
  cbn. destruct (Rle_dec b a) as [Hle | Hnle]; split; intros Hx;
    [exact Hle | reflexivity | discriminate Hx | contradiction].
Qed.

Lemma real_dge_false (a b : R) : dge a b = false <-> (a < b)%R.
Proof.
  cbn. destruct (Rle_dec b a) as [Hle | Hnle]; split; intros Hx;
    [discriminate Hx | lra | lra | reflexivity].
Qed.

Lemma real_constants :
  @TAKEOFF_Z R _ = 6%R /\ @RADIUS R _ = 15%R /\ @ANGULAR_SPEED R _ = (3 / 10)%R /\
  @dlit R _ (0 # 1) = 0%R /\ @dlit R _ (15 # 1) = 15%R.
Proof.
  unfold TAKEOFF_Z, RADIUS, ANGULAR_SPEED. cbn. unfold Q2R. cbn.
  repeat split; lra.
Qed.

Lemma real_duration : @required_figure8_duration R _ = (2 * PI / (3 / 10))%R.
Proof.
  unfold required_figure8_duration, ANGULAR_SPEED. cbn. unfold Q2R. cbn.
  field.
Qed.

(** Bounds on [PI] from Machin's formula with 1/3 and 1/7. *)
Lemma PI_lower : (314145 / 100000 < PI)%R.
Proof.
  pose proof (PI_2_3_7_ineq 1) as [Hl _].
  unfold PI_2_3_7_tg, tg_alt, Ratan_seq in Hl. cbn in Hl.
  lra.
Qed.

Lemma PI_upper : (PI < 314175 / 100000)%R.
Proof.
  pose proof (PI_2_3_7_ineq 2) as [_ Hu].
  unfold PI_2_3_7_tg, tg_alt, Ratan_seq in Hu. cbn in Hu.
  lra.
Qed.

Lemma real_duration_value :
  (20943 / 1000 < 2 * PI / (3 / 10) < 20945 / 1000)%R.
Proof.
  pose proof PI_lower. pose proof PI_upper. split; lra.
Qed.

(** C1.  In a pass that evaluates the Figure8 phase, the phase becomes Land
    exactly when the time in phase is at least 2*PI/0.3 seconds, a duration
    between 20.943 s and 20.945 s.  In that pass the target is set to x = 0,
    y = 0 at the altitude of the figure, which is the altitude it had when it
    was the take-off altitude, and the pass publishes no set-point, so no
    point of the figure is published after the reset. *)
Theorem figure8_ends_after_one_loop (env : Oracle R) (w : World R)
  (Harmed : armed (current_state (vars w)) = true)
  (Hmode : mode (current_state (vars w)) = "OFFBOARD"%string)
  (Hphase : current_phase (vars w) = PHASE_FIGURE8) :
  (current_phase (vars (exec iteration env w)) = PHASE_LAND <->
   (2 * PI / (3 / 10) <=
    IZR (clock env (tick w) - phase_start_time (vars w)) / 1000000000)%R) /\
  (current_phase (vars (exec iteration env w)) = PHASE_LAND ->
   pose (vars (exec iteration env w)) = mkPosition 0%R 0%R 6%R /\
   pos_z (pose (vars (exec iteration env w))) =
     pos_z (figure8_target (toSec (clock env (tick w) - phase_start_time (vars w)))) /\
   (pos_z (pose (vars w)) = TAKEOFF_Z ->
    pos_z (pose (vars (exec iteration env w))) = pos_z (pose (vars w))) /\
   select is_publish (output iteration env w) = []) /\
  (current_phase (vars (exec iteration env w)) <> PHASE_LAND ->
   current_phase (vars (exec iteration env w)) = PHASE_FIGURE8) /\
  (20943 / 1000 < 2 * PI / (3 / 10) < 20945 / 1000)%R.
Proof.
  destruct (figure8_pass env w Harmed Hmode Hphase) as [Hge Hlt].
  destruct real_constants as (Hz & _ & _ & H0 & _).
  rewrite real_duration in Hge, Hlt.
  destruct (dge (toSec (clock env (tick w) - phase_start_time (vars w)))
                (2 * PI / (3 / 10))%R) eqn:E.
  - destruct (Hge eq_refl) as (Hph & Hpose & Hout). clear Hge Hlt.
    apply real_dge in E. cbn in E.
    repeat split; try (intros; assumption); try apply real_duration_value.
    + rewrite Hpose, H0, Hz. reflexivity.
    + rewrite Hpose. reflexivity.
    + intros Hpre. rewrite Hpose, Hpre. reflexivity.
    + rewrite Hout. reflexivity.
    + intros Hne. contradiction.
  - destruct (Hlt eq_refl) as (Hph & Hpose & Hout). clear Hge Hlt.
    apply real_dge_false in E. cbn in E.
    assert (Hne : current_phase (vars (exec iteration env w)) <> PHASE_LAND).
    { rewrite Hph. discriminate. }
    repeat split; try (intros; contradiction); try apply real_duration_value.
    + intros Hle. lra.
    + intros _. exact Hph.
Qed.

(** The code's target is the curve of the specification. *)
Lemma figure8_target_gerono (t : R) : figure8_target t = gerono t.
Proof.
  unfold figure8_target, gerono.
  destruct real_constants as (-> & -> & -> & _). reflexivity.
Qed.

Ltac fact_consts Hx :=
  repeat match type of Hx with
  | context [INR (fact ?n)] =>
      let z := eval vm_compute in (Z.of_nat (fact n)) in
      replace (INR (fact n)) with (IZR z) in Hx
        by (rewrite INR_IZR_INZ; apply f_equal; vm_compute; reflexivity)
  end.

Lemma sin_3_2 : (9973 / 10000 < sin (3 / 2) < 9975 / 10000)%R.
Proof.
  assert (Hpi := PI_lower).
  destruct (SIN (3 / 2)) as [Hl Hu]; [lra | lra |].
  unfold sin_lb, sin_ub, sin_approx in Hl, Hu.
  cbn [sum_f_R0] in Hl, Hu. unfold sin_term in Hl, Hu.
  cbn [Nat.mul Nat.add] in Hl, Hu.
  fact_consts Hl. fact_consts Hu.
  split; lra.
Qed.

(** [cos (3/2) = sin (PI/2 - 3/2)], a small angle. *)
Lemma cos_3_2 : (706 / 10000 < cos (3 / 2) < 709 / 10000)%R.
Proof.
  pose proof PI_lower as Hpl. pose proof PI_upper as Hpu.
  rewrite <- sin_shift.
  set (a := (PI / 2 - 3 / 2)%R).
  assert (Ha : (707 / 10000 < a < 709 / 10000)%R) by (unfold a; lra).
  destruct (SIN a) as [Hl Hu]; [lra | lra |].
  unfold sin_lb, sin_ub, sin_approx in Hl, Hu.
  cbn [sum_f_R0] in Hl, Hu. unfold sin_term in Hl, Hu.
  cbn [Nat.mul Nat.add] in Hl, Hu.
  fact_consts Hl. fact_consts Hu.
  clearbody a. clear Hpl Hpu.
  assert (H2 : (499 / 100000 < a * a < 503 / 100000)%R) by nra.
  assert (H3 : (35 / 100000 < a * a * a < 36 / 100000)%R) by nra.
  assert (H5 : (0 < a ^ 5 < 1 / 100000)%R).
  { replace (a ^ 5)%R with ((a * a * a) * (a * a))%R by ring. nra. }
  assert (H7 : (0 < a ^ 7 < 1 / 1000)%R).
  { replace (a ^ 7)%R with ((a * a * a) * (a * a) * (a * a))%R by ring. nra. }
  assert (H9 : (0 < a ^ 9 < 1 / 1000)%R).
  { replace (a ^ 9)%R with ((a * a * a) * (a * a) * (a * a) * (a * a))%R by ring. nra. }
  replace (a ^ 3)%R with (a * a * a)%R in Hl, Hu by ring.
  split; lra.
Qed.

Lemma within_refl (tol a : R) : (0 <= tol)%R -> within tol a a.
Proof.
  intros Ht. unfold within. rewrite Rminus_diag, Rabs_R0. exact Ht.
Qed.

Lemma within_bounds (tol a b : R) : (b - tol <= a <= b + tol)%R -> within tol a b.
Proof.
  intros [Hl Hu]. unfold within. apply Rabs_le. lra.
Qed.

(** The point of the curve at 5 s: (14.96, 1.06, 6) to two decimals. *)
Lemma gerono_5 :
  gerono 5 = mkPosition (15 * sin (3 / 2))%R (15 * sin (3 / 2) * cos (3 / 2))%R 6%R /\
  (14959 / 1000 < pos_x (gerono 5) < 14963 / 1000)%R /\
  (1056 / 1000 < pos_y (gerono 5) < 1061 / 1000)%R.
Proof.
  assert (E : (3 / 10 * 5 = 3 / 2)%R) by lra.
  unfold gerono. rewrite E. cbn.
  pose proof sin_3_2 as [Hs1 Hs2]. pose proof cos_3_2 as [Hc1 Hc2].
  split; [reflexivity|]. split; split; nra.
Qed.

(** A pass of the Figure8 phase before the end of the loop, in the terms of
    the specification. *)
Lemma figure8_pass_gerono (env : Oracle R) (w : World R) :
  armed (current_state (vars w)) = true ->
  mode (current_state (vars w)) = "OFFBOARD"%string ->
  current_phase (vars w) = PHASE_FIGURE8 ->
  (IZR (clock env (tick w) - phase_start_time (vars w)) / 1000000000 <
   2 * PI / (3 / 10))%R ->
  pose (vars (exec iteration env w)) =
    gerono (IZR (clock env (tick w) - phase_start_time (vars w)) / 1000000000) /\
  map snd (output iteration env w) =
    [setpoint (gerono (IZR (clock env (tick w) - phase_start_time (vars w)) / 1000000000))].
Proof.
  intros Harmed Hmode Hphase Ht.
  destruct (figure8_pass env w Harmed Hmode Hphase) as [_ Hlt].
  rewrite real_duration in Hlt. apply real_dge_false in Ht.
  destruct (Hlt Ht) as (_ & Hpose & Hout).
  rewrite figure8_target_gerono in Hpose, Hout. split; assumption.
Qed.

Lemma figure8_pass_at_5s (env : Oracle R) (w : World R) :
  armed (current_state (vars w)) = true ->
  mode (current_state (vars w)) = "OFFBOARD"%string ->
  current_phase (vars w) = PHASE_FIGURE8 ->
  clock env (tick w) - phase_start_time (vars w) = 5000000000 ->
  map snd (output iteration env w) = [setpoint (gerono 5)].
Proof.
  intros Harmed Hmode Hphase H5.
  assert (E5 : (IZR 5000000000 / 1000000000 = 5)%R) by lra.
  rewrite <- E5, <- H5.
  apply figure8_pass_gerono; auto.
  rewrite H5, E5. pose proof PI_lower. lra.
Qed.

(** C6, with the decimals of the example put right.  In a pass that evaluates
    the Figure8 phase at a time in phase [t] below the loop duration, the
    target becomes (15 sin(0.3 t), 15 sin(0.3 t) cos(0.3 t), 6) and is the
    set-point published in that pass.  At t = 5 s the published point is
    within 1e-6 of (15 sin 1.5, 15 sin 1.5 cos 1.5, 6), which is
    (14.96, 1.06, 6) to two decimals. *)
Theorem figure8_target_formula (env : Oracle R) (w : World R)
  (Harmed : armed (current_state (vars w)) = true)
  (Hmode : mode (current_state (vars w)) = "OFFBOARD"%string)
  (Hphase : current_phase (vars w) = PHASE_FIGURE8) :
  ((IZR (clock env (tick w) - phase_start_time (vars w)) / 1000000000 <
    2 * PI / (3 / 10))%R ->
   pose (vars (exec iteration env w)) =
     gerono (IZR (clock env (tick w) - phase_start_time (vars w)) / 1000000000) /\
   map snd (output iteration env w) =
     [setpoint (gerono (IZR (clock env (tick w) - phase_start_time (vars w)) / 1000000000))]) /\
  (clock env (tick w) - phase_start_time (vars w) = 5000000000 ->
   example_at_5s (1496 / 100) (106 / 100) env w).
Proof.
  split; [apply figure8_pass_gerono; assumption|].
  intros H5.
  pose proof (figure8_pass_at_5s env w Harmed Hmode Hphase H5) as Hout.
  destruct gerono_5 as (Hg & Hx & Hy).
  exists (pos_x (gerono 5)), (pos_y (gerono 5)), (pos_z (gerono 5)).
  split; [exact Hout|].
  rewrite Hg in *. cbn [pos_x pos_y pos_z] in *.
  repeat split; try (apply within_refl; lra); apply within_bounds; lra.
Qed.

(** In exact arithmetic the target of the Figure8 phase lies in the box
    [-RADIUS, RADIUS] x [-RADIUS/2, RADIUS/2] for every [t]: |R sin a| <= R
    and |R sin a cos a| <= R/2 for every angle a.  So does the target left by
    any pass that evaluates the Figure8 phase, the pass that ends the figure
    included.  The computed doubles are treated at the end of the file. *)
Lemma figure8_target_in_box :
  (forall t : R, in_box (figure8_target t)) /\
  (forall (env : Oracle R) (w : World R),
     armed (current_state (vars w)) = true ->
     mode (current_state (vars w)) = "OFFBOARD"%string ->
     current_phase (vars w) = PHASE_FIGURE8 ->
     in_box (pose (vars (exec iteration env w)))).
Proof.
  assert (Hbox : forall t : R, in_box (figure8_target t)).
  { intros t. rewrite figure8_target_gerono. unfold in_box, gerono.
    destruct real_constants as (_ & -> & _). cbn [pos_x pos_y].
    pose proof (SIN_bound (3 / 10 * t)) as [Hs1 Hs2].
    pose proof (SIN_bound (2 * (3 / 10 * t))) as [Hd1 Hd2].
    rewrite sin_2a in Hd1, Hd2.
    repeat split; lra. }
  split; [exact Hbox|].
  intros env w Harmed Hmode Hphase.
  destruct (figure8_pass env w Harmed Hmode Hphase) as [Hge Hlt].
  destruct (dge (toSec (clock env (tick w) - phase_start_time (vars w)))
                required_figure8_duration) eqn:E.
  - destruct (Hge eq_refl) as (_ & -> & _).
    unfold in_box. destruct real_constants as (_ & -> & _ & -> & _).
    cbn [pos_x pos_y]. repeat split; lra.
  - destruct (Hlt eq_refl) as (_ & -> & _). apply Hbox.
Qed.

(** * Sample runs *)

(** The loop duration, the two thresholds (in nanoseconds of phase time) and
    the angle at 5 s in IEEE binary64, whatever the C library's [sin] and
    [cos] are. *)
Example binary64_duration (fsin fcos : float -> float) :
  let ops := binary64_ops fsin fcos in
  @required_figure8_duration float ops = 0x1.4f1a6c638d03fp+4%float.
Proof. vm_compute. reflexivity. Qed.

Example binary64_takeoff_threshold (fsin fcos : float -> float) :
  let ops := binary64_ops fsin fcos in
  @dge float ops (@toSec float ops 14999999999) (@dlit float ops (15 # 1)) = false /\
  @dge float ops (@toSec float ops 15000000000) (@dlit float ops (15 # 1)) = true.
Proof. split; vm_compute; reflexivity. Qed.

Example binary64_figure8_threshold (fsin fcos : float -> float) :
  let ops := binary64_ops fsin fcos in
  @dge float ops (@toSec float ops 20943951023) (@required_figure8_duration float ops) = false /\
  @dge float ops (@toSec float ops 20943951024) (@required_figure8_duration float ops) = true.
Proof. split; vm_compute; reflexivity. Qed.

Example binary64_angle_at_5s (fsin fcos : float -> float) :
  let ops := binary64_ops fsin fcos in
  @dmul float ops (@ANGULAR_SPEED float ops) (@toSec float ops 5000000000) = 0x1.8p+0%float.
Proof. vm_compute. reflexivity. Qed.

(** C1 at 21 s into the figure: the phase becomes Land. *)
Lemma figure8_ends_witness :
  current_phase
    (vars (exec iteration (sample_env 21000000000 50000000 [])
                          (sample_world flying PHASE_FIGURE8))) = PHASE_LAND.
Proof.
  destruct (figure8_ends_after_one_loop
              (sample_env 21000000000 50000000 [])
              (sample_world flying PHASE_FIGURE8) eq_refl eq_refl eq_refl)
    as [[_ Hback] _].
  apply Hback. cbn. pose proof PI_upper. lra.
Defined.

(** C2 as stated fails in the pass that goes from Land to Complete: the
    timer keeps its old value 0 while every clock reading is at least 1 s. *)
Lemma landing_keeps_phase_timer :
  ~ timer_reset_on_transition (sample_env 1000000000 50000000 [])
                              (sample_world flying PHASE_LAND).
Proof.
  unfold timer_reset_on_transition. intros Hreset.
  assert (Hphase : current_phase
            (vars (exec iteration (sample_env 1000000000 50000000 [])
                                  (sample_world flying PHASE_LAND))) = PHASE_COMPLETE)
    by (lazy; reflexivity).
  assert (Htimer : phase_start_time
            (vars (exec iteration (sample_env 1000000000 50000000 [])
                                  (sample_world flying PHASE_LAND))) = 0)
    by (lazy; reflexivity).
  destruct Hreset as (k & _ & Hk).
  - rewrite Hphase. discriminate.
  - rewrite Htimer in Hk. unfold sample_env in Hk. cbn [clock] in Hk. lia.
Qed.

(** C5 on a coarse clock (3 s per tick) with a disarmed vehicle in MANUAL
    mode: three requests in three passes, more than 5 s apart. *)
Lemma commands_spaced_witness :
  select is_command
    (output (main_loop 3) (sample_env 0 3000000000 [])
            (sample_world disarmed PHASE_TAKEOFF)) =
    [(3%nat, EvArming true); (11%nat, EvSetMode "OFFBOARD");
     (20%nat, EvSetMode "OFFBOARD")] /\
  spaced (clock (sample_env 0 3000000000 []))
    (select is_command
       (output (main_loop 3) (sample_env 0 3000000000 [])
               (sample_world disarmed PHASE_TAKEOFF))).
Proof.
  split; [lazy; reflexivity|].
  apply (commands_exclusive_and_spaced
           (sample_env 0 3000000000 []) (sample_world disarmed PHASE_TAKEOFF)).
  intros i j Hij. unfold sample_env. cbn [clock]. lia.
Defined.

(** The AUTO.LAND request is not one of the throttled requests: when the
    vehicle then reports AUTO.LAND, the next pass asks for OFFBOARD again,
    here 60 ms later. *)
Example offboard_requested_right_after_land :
  output (main_loop 2)
         (sample_env 30000000000 10000000 [mkMavState true true "AUTO.LAND"])
         (sample_world flying PHASE_LAND) =
  [(2%nat, EvSetMode "AUTO.LAND"); (8%nat, EvSetMode "OFFBOARD")].
Proof. lazy. reflexivity. Qed.

(** C6 at 5 s into the figure. *)
Lemma figure8_target_witness :
  example_at_5s (1496 / 100) (106 / 100)
    (sample_env 5000000000 50000000 []) (sample_world flying PHASE_FIGURE8).
Proof.
  apply (figure8_target_formula
           (sample_env 5000000000 50000000 [])
           (sample_world flying PHASE_FIGURE8) eq_refl eq_refl eq_refl).
  reflexivity.
Defined.

(** C6 as stated fails on the first decimal it gives: the published x is
    15 sin 1.5 > 14.959, more than 0.005 away from 14.95. *)
Lemma example_x_is_not_14_95 :
  ~ example_at_5s (1495 / 100) (106 / 100)
      (sample_env 5000000000 50000000 []) (sample_world flying PHASE_FIGURE8).
Proof.
  intros (x & y & z & Hout & _ & _ & _ & Hx & _).
  rewrite (figure8_pass_at_5s (sample_env 5000000000 50000000 [])
             (sample_world flying PHASE_FIGURE8) eq_refl eq_refl eq_refl eq_refl)
    in Hout.
  destruct gerono_5 as (_ & [Hlow _] & _).
  unfold setpoint, gerono in Hout, Hlow. cbn [pos_x pos_y pos_z] in Hout, Hlow.
  injection Hout as Ex _ _. subst x.
  unfold within in Hx.
  pose proof (RRle_abs (15 * sin (3 / 10 * 5) - 1495 / 100)) as Hle. lra.
Qed.

(** C8 for telemetry that reports the link up in one run and down in the
    other. *)
Lemma loop_ignores_connected_witness :
  output (main_loop 3)
         (sample_env 0 50000000 [mkMavState true true "OFFBOARD"])
         (sample_world flying PHASE_TAKEOFF) =
  output (main_loop 3)
         (sample_env 0 50000000 [mkMavState false true "OFFBOARD"])
         (sample_world (mkMavState false true "OFFBOARD") PHASE_TAKEOFF).
Proof.
  apply (loop_ignores_connected
           (sample_env 0 50000000 [mkMavState true true "OFFBOARD"])
           (sample_env 0 50000000 [mkMavState false true "OFFBOARD"])
           (sample_world flying PHASE_TAKEOFF)
           (sample_world (mkMavState false true "OFFBOARD") PHASE_TAKEOFF) 3).
  - unfold telemetry_agrees. cbn. repeat split.
    constructor; [split; reflexivity | constructor].
  - unfold worlds_agree, same_but_connected. cbn. repeat split.
Defined.

(** C10 for a disarmed vehicle during take-off: the take-off point is
    published again. *)
Lemma idle_iteration_witness :
  map snd (select is_publish
             (output iteration (sample_env 0 50000000 [])
                     (sample_world disarmed PHASE_TAKEOFF))) =
  [setpoint takeoff_target].
Proof.
  apply (idle_iteration_keeps_target
           (sample_env 0 50000000 []) (sample_world disarmed PHASE_TAKEOFF)
           (or_introl eq_refl)).
  reflexivity.
Defined.

(** * The mission in exact arithmetic *)

Lemma real_takeoff_due (dt : Z) :
  dge (toSec dt) (dlit (15 # 1)) = true <-> 15000000000 <= dt.
Proof.
  rewrite real_dge. destruct real_constants as (_ & _ & _ & _ & ->). cbn [toSec real_ops].
  split; intros Hd.
  - apply le_IZR. lra.
  - apply IZR_le in Hd. lra.
Qed.

Lemma real_figure8_due (dt : Z) :
  21000000000 <= dt -> dge (toSec dt) required_figure8_duration = true.
Proof.
  intros Hd. rewrite real_duration. apply real_dge. cbn [toSec real_ops].
  apply IZR_le in Hd. pose proof PI_upper. lra.
Qed.

(** X1.  A pass that evaluates the Takeoff phase sets and publishes the
    target (0, 0, 6); it moves to Figure8 exactly when at least 15 s have
    passed on the phase timer, and then restarts the timer at the next clock
    reading; otherwise phase and timer stay as they are. *)
Theorem takeoff_lasts_15_seconds (env : Oracle R) (w : World R)
  (Harmed : armed (current_state (vars w)) = true)
  (Hmode : mode (current_state (vars w)) = "OFFBOARD"%string)
  (Hphase : current_phase (vars w) = PHASE_TAKEOFF) :
  pose (vars (exec iteration env w)) = mkPosition 0%R 0%R 6%R /\
  map snd (output iteration env w) = [EvPublish 0%R 0%R 6%R] /\
  (current_phase (vars (exec iteration env w)) = PHASE_FIGURE8 <->
   15000000000 <= clock env (tick w) - phase_start_time (vars w)) /\
  (current_phase (vars (exec iteration env w)) = PHASE_FIGURE8 ->
   phase_start_time (vars (exec iteration env w)) = clock env (S (tick w))) /\
  (current_phase (vars (exec iteration env w)) <> PHASE_FIGURE8 ->
   current_phase (vars (exec iteration env w)) = PHASE_TAKEOFF /\
   phase_start_time (vars (exec iteration env w)) = phase_start_time (vars w)).
Proof.
  destruct (takeoff_pass env w Harmed Hmode Hphase) as (Hpose & Hout & _ & Hge & Hlt).
  assert (Htp : @takeoff_target R _ = mkPosition 0%R 0%R 6%R).
  { unfold takeoff_target. destruct real_constants as (-> & _ & _ & -> & _). reflexivity. }
  rewrite Htp in Hpose, Hout.
  split; [exact Hpose|]. split; [exact Hout|].
  destruct (dge (toSec (clock env (tick w) - phase_start_time (vars w))) (dlit (15 # 1)))
    eqn:E.
  - destruct (Hge eq_refl) as (Hph & Hps). apply real_takeoff_due in E.
    repeat split; try (intros; assumption); contradiction.
  - destruct (Hlt eq_refl) as (Hph & Hps).
    assert (Hnot : ~ 15000000000 <= clock env (tick w) - phase_start_time (vars w)).
    { intros Hd. apply real_takeoff_due in Hd. rewrite Hd in E. discriminate E. }
    assert (Hne : current_phase (vars (exec iteration env w)) <> PHASE_FIGURE8).
    { rewrite Hph. discriminate. }
    repeat split; try (intros; contradiction); assumption.
Qed.

(** ** The mission comes to its end *)

Section Progress.
Variable env : Oracle R.
Hypothesis Hok : forall k : nat, ros_ok env k = true.
Hypothesis Hmsgs : forall k : nat, Forall flying_state (state_msgs env k).
Hypothesis Hmono : monotone (clock env).

Lemma takeoff_timed : timed_phase env PHASE_TAKEOFF 15000000000.
Proof.
  intros w [Harmed Hmode] Hphase.
  destruct (takeoff_pass env w Harmed Hmode Hphase) as (_ & _ & _ & Hge & Hlt).
  split.
  - intros Hd. apply real_takeoff_due in Hd. apply Hge. exact Hd.
  - destruct (dge _ _); [left; apply Hge | right; apply Hlt]; reflexivity.
Qed.

Lemma figure8_timed : timed_phase env PHASE_FIGURE8 21000000000.
Proof.
  intros w [Harmed Hmode] Hphase.
  destruct (figure8_pass env w Harmed Hmode Hphase) as (Hge & Hlt).
  pose proof (figure8_pass_timer env w Harmed Hmode Hphase) as Hps.
  split.
  - intros Hd. apply real_figure8_due in Hd. apply Hge. exact Hd.
  - destruct (dge _ _); [left; apply Hge | right; split; [apply Hlt | exact Hps]];
      reflexivity.
Qed.

Lemma timed_phase_ends (p limit : Z) (Htimed : timed_phase env p limit) (reach : nat) :
  forall (d : nat) (w : World R),
    flying_state (current_state (vars w)) -> current_phase (vars w) = p ->
    phase_start_time (vars w) + limit <= clock env reach ->
    (reach - tick w <= d)%nat ->
    exists n : nat,
      current_phase (vars (exec (main_loop n) env w)) = p + 1 /\
      flying_state (current_state (vars (exec (main_loop n) env w))).
Proof.
  induction d as [|d IH]; intros w Hfly Hphase Hreach Hd.
  - exists 1%nat. rewrite main_loop_exec, Hok. cbn [main_loop ret exec fst snd].
    split; [|apply iteration_flying; assumption].
    apply (Htimed (bump w) Hfly Hphase). cbn [bump vars tick].
    assert (Hc : clock env reach <= clock env (S (tick w))) by (apply Hmono; lia).
    clear - Hc Hreach. lia.
  - destruct (Htimed (bump w) Hfly Hphase) as [_ [Hnext | [Hsame Hps]]].
    + exists 1%nat. rewrite main_loop_exec, Hok. cbn [main_loop ret exec fst snd].
      split; [exact Hnext | apply iteration_flying; assumption].
    + pose proof (iteration_tick env (bump w)) as Ht. cbn [bump tick] in Ht.
      destruct (IH (exec iteration env (bump w))) as (n & Hn & Hf).
      * apply iteration_flying; assumption.
      * exact Hsame.
      * rewrite Hps. exact Hreach.
      * lia.
      * exists (S n). rewrite main_loop_exec, Hok. split; assumption.
Qed.

End Progress.

(** X10.  If [ros::ok()] stays true, the vehicle is and stays armed and in
    OFFBOARD mode, and the clock never runs backwards and passes every time,
    then from any phase the loop reaches Complete after finitely many passes
    and stays there. *)
Theorem mission_completes (env : Oracle R) (w : World R)
  (Hok : forall k : nat, ros_ok env k = true)
  (Hmsgs : forall k : nat, Forall flying_state (state_msgs env k))
  (Hmono : monotone (clock env))
  (Hunbounded : unbounded (clock env))
  (Hfly : flying_state (current_state (vars w)))
  (Hphase : PHASE_TAKEOFF <= current_phase (vars w) <= PHASE_COMPLETE) :
  exists n : nat, forall m : nat, (n <= m)%nat ->
    current_phase (vars (exec (main_loop m) env w)) = PHASE_COMPLETE.
Proof.
  assert (Hstay : forall (n : nat) (w' : World R),
            current_phase (vars (exec (main_loop n) env w')) = PHASE_COMPLETE ->
            forall m : nat, (n <= m)%nat ->
            current_phase (vars (exec (main_loop m) env w')) = PHASE_COMPLETE).
  { intros n w' Hn m Hm. replace m with (n + (m - n))%nat by lia.
    rewrite (main_loop_add env _ _ _ Hok). apply main_loop_complete. exact Hn. }
  assert (Hland : forall w' : World R,
            flying_state (current_state (vars w')) ->
            current_phase (vars w') = PHASE_LAND ->
            exists n, current_phase (vars (exec (main_loop n) env w')) = PHASE_COMPLETE).
  { intros w' [Ha Hm] Hp. exists 1%nat.
    rewrite main_loop_exec, Hok. cbn [main_loop ret exec fst snd].
    apply (land_pass env (bump w') Ha Hm Hp). }
  assert (Hfigure : forall w' : World R,
            flying_state (current_state (vars w')) ->
            current_phase (vars w') = PHASE_FIGURE8 ->
            exists n, current_phase (vars (exec (main_loop n) env w')) = PHASE_COMPLETE).
  { intros w' Hf Hp.
    destruct (Hunbounded (phase_start_time (vars w') + 21000000000)) as (reach & Hreach).
    destruct (timed_phase_ends env Hok Hmsgs Hmono _ _ (figure8_timed env) reach
                (reach - tick w') w' Hf Hp Hreach (Nat.le_refl _)) as (n1 & Hn1 & Hf1).
    destruct (Hland _ Hf1 Hn1) as (n2 & Hn2).
    exists (n1 + n2)%nat. rewrite (main_loop_add env _ _ _ Hok). exact Hn2. }
  assert (Htakeoff : forall w' : World R,
            flying_state (current_state (vars w')) ->
            current_phase (vars w') = PHASE_TAKEOFF ->
            exists n, current_phase (vars (exec (main_loop n) env w')) = PHASE_COMPLETE).
  { intros w' Hf Hp.
    destruct (Hunbounded (phase_start_time (vars w') + 15000000000)) as (reach & Hreach).
    destruct (timed_phase_ends env Hok Hmsgs Hmono _ _ (takeoff_timed env) reach
                (reach - tick w') w' Hf Hp Hreach (Nat.le_refl _)) as (n1 & Hn1 & Hf1).
    destruct (Hfigure _ Hf1 Hn1) as (n2 & Hn2).
    exists (n1 + n2)%nat. rewrite (main_loop_add env _ _ _ Hok). exact Hn2. }
  assert (Hcases : current_phase (vars w) = PHASE_TAKEOFF \/
                   current_phase (vars w) = PHASE_FIGURE8 \/
                   current_phase (vars w) = PHASE_LAND \/
                   current_phase (vars w) = PHASE_COMPLETE).
  { unfold PHASE_TAKEOFF, PHASE_FIGURE8, PHASE_LAND, PHASE_COMPLETE in *. lia. }
  destruct Hcases as [Hp | [Hp | [Hp | Hp]]].
  - destruct (Htakeoff w Hfly Hp) as (n & Hn). exists n. apply Hstay. exact Hn.
  - destruct (Hfigure w Hfly Hp) as (n & Hn). exists n. apply Hstay. exact Hn.
  - destruct (Hland w Hfly Hp) as (n & Hn). exists n. apply Hstay. exact Hn.
  - exists 0%nat. apply Hstay. exact Hp.
Qed.

(** * Sample runs of the whole mission *)

(** X1 at 16 s into the take-off: the figure starts. *)
Lemma takeoff_ends_witness :
  current_phase
    (vars (exec iteration (sample_env 16000000000 50000000 [])
                          (sample_world flying PHASE_TAKEOFF))) = PHASE_FIGURE8.
Proof.
  destruct (takeoff_lasts_15_seconds
              (sample_env 16000000000 50000000 [])
              (sample_world flying PHASE_TAKEOFF) eq_refl eq_refl eq_refl)
    as (_ & _ & [_ Hback] & _).
  apply Hback. unfold sample_env, sample_world. cbn [clock tick vars phase_start_time]. lia.
Defined.


(** X5 on a run that waits for the connection, warms up and makes its first
    request in the first pass. *)
Lemma warmup_precedes_witness :
  (100 <= List.length
            (select is_publish
               (firstn 100 (output (main 3 1) (sample_env 0%Z 3000000000%Z [disarmed])
                                   initial_world))))%nat.
Proof.
  apply (warmup_precedes_requests
           (sample_env 0 3000000000 [disarmed]) 3 1
           (firstn 100 (output (main 3 1) (sample_env 0 3000000000 [disarmed])
                               initial_world))
           (skipn 101 (output (main 3 1) (sample_env 0 3000000000 [disarmed])
                              initial_world))
           511%nat (EvSetMode "OFFBOARD")).
  - intros i j _ _. reflexivity.
  - lazy. reflexivity.
  - reflexivity.
Defined.

(** X6 for a vehicle that reports the link at the first [spinOnce]. *)
Lemma connection_wait_witness :
  connected
    (current_state
       (vars (exec (wait_for_connection 3) (sample_env 0 50000000 [disarmed])
                   initial_world))) = true \/
  ros_ok (sample_env 0 50000000 [disarmed])
    (Nat.pred (tick (exec (wait_for_connection 3) (sample_env 0 50000000 [disarmed])
                          initial_world))) = false.
Proof.
  apply (connection_wait_exit 3 (sample_env 0 50000000 [disarmed]) initial_world).
  lazy. reflexivity.
Defined.

(** X7 for five passes after the mission. *)
Lemma complete_is_absorbing_witness :
  select is_publish
    (output (main_loop 5) (sample_env 0 50000000 [])
            (sample_world flying PHASE_COMPLETE)) = [].
Proof.
  apply (complete_is_absorbing (sample_env 0 50000000 [])
           (sample_world flying PHASE_COMPLETE) 5 eq_refl).
Defined.

(** X9 for servers that refuse and a position feed, against servers that
    accept and no feed. *)
Lemma unused_inputs_witness :
  output (main 3 4) (sample_env 0 3000000000 [disarmed]) initial_world =
  output (main 3 4) (refusing_env 0 3000000000 [disarmed]) initial_world.
Proof.
  apply (unused_inputs (sample_env 0 3000000000 [disarmed])
           (refusing_env 0 3000000000 [disarmed]) 3 4).
  unfold inputs_agree. repeat split.
Defined.

(** X10 for a vehicle that flies from the start on a clock of 1 s per tick. *)
Lemma mission_completes_witness :
  exists n : nat, forall m : nat, (n <= m)%nat ->
    current_phase
      (vars (exec (main_loop m) (sample_env 0 1000000000 [flying])
                  (sample_world flying PHASE_TAKEOFF))) = PHASE_COMPLETE.
Proof.
  apply (mission_completes (sample_env 0 1000000000 [flying])
           (sample_world flying PHASE_TAKEOFF)).
  - intros k. reflexivity.
  - intros k. repeat constructor.
  - intros i j Hij. unfold sample_env. cbn [clock]. lia.
  - intros t. exists (Z.to_nat t). unfold sample_env. cbn [clock]. lia.
  - split; reflexivity.
  - unfold sample_world. cbn [vars current_phase].
    unfold PHASE_TAKEOFF, PHASE_COMPLETE. lia.
Defined.

(** X11 after start-up and two passes. *)
Lemma elapsed_times_witness :
  0 <= clock (sample_env 0 3000000000 [disarmed]) 1000 -
       phase_start_time
         (vars (exec (main 3 2) (sample_env 0 3000000000 [disarmed]) initial_world)) /\
  0 <= clock (sample_env 0 3000000000 [disarmed]) 1000 -
       last_request
         (vars (exec (main 3 2) (sample_env 0 3000000000 [disarmed]) initial_world)).
Proof.
  apply (elapsed_times_nonnegative (sample_env 0 3000000000 [disarmed]) 3 2 1000).
  - intros i j Hij. unfold sample_env. cbn [clock]. lia.
  - lazy. reflexivity.
  - apply Nat.leb_le. lazy. reflexivity.
Defined.

(** * The box and the computed doubles *)

(** ** Rounded arithmetic *)

Lemma abs_bounds (z b : R) : (Rabs z <= b -> - b <= z <= b)%R.
Proof. unfold Rabs. destruct (Rcase_abs z); lra. Qed.

(** With rounded products and a library [sin] and [cos] that are within
    2^-52 of the exact functions, x stays in [-15, 15] (rounding is monotone
    and 15 is a double), and y is within 10^-14 of [-7.5, 7.5]:
    15 s c is within 30 * 2^-52 of 15 sin a cos a, and each of the two
    products adds at most 15 * 2^-53 + 2^-64. *)
Lemma figure8_rounded_in_box (rnd fsin fcos : R -> R) (tsec : Z -> R) (t : R) :
  rounding (/ 9007199254740992) (/ 18446744073709551616) rnd ->
  library (/ 4503599627370496) fsin sin ->
  library (/ 4503599627370496) fcos cos ->
  in_box_up_to (1 / 100000000000000)
    (@figure8_target R (rounded_ops rnd fsin fcos tsec) t).
Proof.
  intros (Herr & Hmono & Hint) Hsin Hcos.
  unfold in_box_up_to, figure8_target. destruct real_constants as (_ & -> & _).
  cbn [pos_x pos_y].
  unfold RADIUS, ANGULAR_SPEED. cbn [dmul dsin dcos dlit rounded_ops].
  set (a := rnd (rnd (Q2R (3 # 10)) * t)%R).
  assert (E15 : Q2R (15 # 1) = IZR 15) by (unfold Q2R; cbn; lra).
  rewrite E15, (Hint 15) by (cbn; lia).
  destruct (Hsin a) as [Hs1 Hs2]. destruct (Hcos a) as [Hc1 Hc2].
  set (s := fsin a) in *. set (c := fcos a) in *.
  apply abs_bounds in Hs1, Hs2, Hc1, Hc2.
  pose proof (Herr (15 * s)%R) as Hx. pose proof (Herr (rnd (15 * s) * c)%R) as Hy.
  assert (Hx15 : (-15 <= rnd (15 * s) <= 15)%R).
  { split.
    - rewrite <- (Hint (-15)) by (cbn; lia). apply Hmono. lra.
    - rewrite <- (Hint 15) at 2 by (cbn; lia). apply Hmono. lra. }
  set (x := rnd (15 * s)%R) in *. set (y := rnd (x * c)%R) in *.
  assert (Hsc : (- (1 / 2) - 2 * / 4503599627370496 <= s * c <=
                 1 / 2 + 2 * / 4503599627370496)%R).
  { pose proof (SIN_bound a) as [HS1 HS2]. pose proof (COS_bound a) as [HC1 HC2].
    pose proof (SIN_bound (2 * a)) as [HD1 HD2]. rewrite sin_2a in HD1, HD2.
    replace (s * c)%R with (sin a * cos a + (s - sin a) * cos a + s * (c - cos a))%R by ring.
    assert (H1 : (- / 4503599627370496 <= (s - sin a) * cos a <= / 4503599627370496)%R)
      by (split; nra).
    assert (H2 : (- / 4503599627370496 <= s * (c - cos a) <= / 4503599627370496)%R)
      by (split; nra).
    split; lra. }
  assert (Hax : (Rabs (15 * s) <= 15)%R) by (apply Rabs_le; lra).
  assert (Haxc : (Rabs (x * c) <= 15)%R) by (apply Rabs_le; split; nra).
  assert (Hd1 : (- (15 * / 9007199254740992 + / 18446744073709551616) <= x - 15 * s <=
                 15 * / 9007199254740992 + / 18446744073709551616)%R).
  { apply abs_bounds. eapply Rle_trans; [exact Hx|]. nra. }
  assert (Hd2 : (- (15 * / 9007199254740992 + / 18446744073709551616) <= y - x * c <=
                 15 * / 9007199254740992 + / 18446744073709551616)%R).
  { apply abs_bounds. eapply Rle_trans; [exact Hy|]. nra. }
  assert (Hd1c : (- (15 * / 9007199254740992 + / 18446744073709551616) <=
                  (x - 15 * s) * c <=
                  15 * / 9007199254740992 + / 18446744073709551616)%R) by (split; nra).
  replace y with (15 * (s * c) + (x - 15 * s) * c + (y - x * c))%R by ring.
  split; [exact Hx15|]. split; lra.
Qed.

(** Exact arithmetic is a rounding, and the exact functions are a library. *)
Lemma exact_rounding (u eta : R) :
  (0 <= u)%R -> (0 <= eta)%R -> rounding u eta (fun r => r).
Proof.
  intros Hu He. repeat split.
  - intros r. rewrite Rminus_diag, Rabs_R0.
    pose proof (Rmult_le_pos u (Rabs r) Hu (Rabs_pos r)). lra.
  - intros r1 r2 Hr. exact Hr.
Qed.

Lemma exact_library (eps : R) :
  (0 <= eps)%R -> library eps sin sin /\ library eps cos cos.
Proof.
  intros He. split; intros a; rewrite Rminus_diag, Rabs_R0; (split; [exact He|]);
    apply Rabs_le; [apply SIN_bound | apply COS_bound].
Qed.

(** C7.  The target of the Figure8 phase and the box
    [-RADIUS, RADIUS] x [-RADIUS/2, RADIUS/2].  In exact arithmetic the target
    lies in the box for every [t] (so for every t in [0, 2 PI / ANGULAR_SPEED]).
    For the computed doubles, under round-to-nearest (relative error 2^-53,
    underflow term up to 2^-64, monotone, integers kept) and with a library
    [sin] and [cos] within 2^-52 of the exact functions and in [-1, 1]:
    |x| <= RADIUS, and |y| <= RADIUS/2 + 10^-14, for every [t], whatever
    [toSec] returns.  The bound RADIUS/2 itself does not hold of the doubles,
    as the binary64 run below shows. *)
Theorem figure8_target_in_box_up_to_rounding :
  (forall t : R, in_box (@figure8_target R real_ops t)) /\
  (forall (rnd fsin fcos : R -> R) (tsec : Z -> R) (t : R),
     rounding (/ 9007199254740992) (/ 18446744073709551616) rnd ->
     library (/ 4503599627370496) fsin sin ->
     library (/ 4503599627370496) fcos cos ->
     in_box_up_to (1 / 100000000000000)
       (@figure8_target R (rounded_ops rnd fsin fcos tsec) t)).
Proof.
  split.
  - apply figure8_target_in_box.
  - intros rnd fsin fcos tsec t Hrnd Hsin Hcos.
    apply figure8_rounded_in_box; assumption.
Qed.

(** X12.  Under the same assumptions on the arithmetic, every set-point
    published by [main], in the warm-up and in the loop, has |x| <= 15 and
    |y| <= 7.5 + 10^-14, for every environment and any number of passes. *)
Theorem setpoints_in_fence_up_to_rounding (rnd fsin fcos : R -> R) (tsec : Z -> R)
  (env : Oracle R) (fuel_wait fuel_loop : nat)
  (Hrnd : rounding (/ 9007199254740992) (/ 18446744073709551616) rnd)
  (Hsin : library (/ 4503599627370496) fsin sin)
  (Hcos : library (/ 4503599627370496) fcos cos) :
  Forall (in_fence_up_to (1 / 100000000000000))
         (map snd (output (@main R (rounded_ops rnd fsin fcos tsec) fuel_wait fuel_loop)
                          env (@initial_world R (rounded_ops rnd fsin fcos tsec)))).
Proof.
  set (ops := rounded_ops rnd fsin fcos tsec).
  set (P := in_box_up_to (1 / 100000000000000)).
  assert (Htakeoff : P (@takeoff_target R ops)).
  { destruct Hrnd as (_ & _ & Hint).
    unfold P, in_box_up_to, takeoff_target, TAKEOFF_Z.
    destruct real_constants as (_ & -> & _).
    cbn [pos_x pos_y dlit ops rounded_ops].
    assert (E0 : Q2R (0 # 1) = IZR 0) by (unfold Q2R; cbn; lra).
    rewrite E0, (Hint 0) by (cbn; lia). repeat split; lra. }
  assert (Hfigure : forall t : R, P (@figure8_target R ops t)).
  { intros t. apply figure8_rounded_in_box; assumption. }
  assert (Hfence : forall p : Position R, P p ->
                   in_fence_up_to (1 / 100000000000000) (setpoint p)).
  { intros [x y z] Hp. exact Hp. }
  rewrite (@main_output R ops).
  destruct (value (@wait_for_connection R fuel_wait) env (@initial_world R ops));
    [|constructor].
  rewrite map_app. apply Forall_app. split.
  - destruct (@startup_output R ops env
                (exec (@wait_for_connection R fuel_wait) env (@initial_world R ops)))
      as (Ho & _).
    apply Forall_map. eapply Forall_impl; [|exact Ho].
    intros [k e] He. cbn [snd] in *. subst e. apply Hfence. exact Htakeoff.
  - assert (Hentry : P (pose (vars (@loop_entry R ops env fuel_wait)))).
    { unfold loop_entry.
      destruct (@startup_output R ops env
                  (exec (@wait_for_connection R fuel_wait) env (@initial_world R ops)))
        as (_ & _ & -> & _).
      exact Htakeoff. }
    destruct (@main_loop_pose_invariant R ops P Htakeoff Hfigure fuel_loop env _ Hentry)
      as [_ Ho].
    apply Forall_map. eapply Forall_impl; [|exact Ho].
    intros [k e] He. cbn [snd] in *.
    destruct e as [x y z | m | v]; try exact I.
    destruct (He eq_refl) as (p & Hp & E). rewrite E. apply Hfence. exact Hp.
Qed.

(** ** Binary64 *)

(** 2.617993871 s into the figure (an eighth of the loop) the code's angle
    [ANGULAR_SPEED * t] is the double 0x1.921fb5323e7b1p-1. *)
Lemma binary64_angle_value :
  binary64_angle 2617993871 = 0x1.921fb5323e7b1p-1%float.
Proof. vm_compute. reflexivity. Qed.

(** With [sin] and [cos] returning 0x1.6a09e65b36528p-1 and
    0x1.6a09e674b1272p-1 there, [RADIUS * sin a * cos a] is the double next
    but one above 7.5. *)
Lemma binary64_y_at (fsin fcos : float -> float) :
  fsin (binary64_angle 2617993871) = 0x1.6a09e65b36528p-1%float ->
  fcos (binary64_angle 2617993871) = 0x1.6a09e674b1272p-1%float ->
  pos_y (@figure8_target float (binary64_ops fsin fcos)
           (@toSec float (binary64_ops fsin fcos) 2617993871)) =
    0x1.e000000000002p+2%float /\
  in_box_binary64 (@figure8_target float (binary64_ops fsin fcos)
                     (@toSec float (binary64_ops fsin fcos) 2617993871)) = false.
Proof.
  rewrite binary64_angle_value. intros Hs Hc.
  unfold in_box_binary64, figure8_target. cbn [pos_x pos_y].
  change (@dmul float (binary64_ops fsin fcos) (@ANGULAR_SPEED float (binary64_ops fsin fcos))
            (@toSec float (binary64_ops fsin fcos) 2617993871))
    with (binary64_angle 2617993871).
  rewrite binary64_angle_value.
  cbn [dsin dcos binary64_ops]. rewrite Hs, Hc.
  split; vm_compute; reflexivity.
Qed.

(** The real number of a given double, by evaluation. *)
Ltac float_value f :=
  unfold float_to_R;
  let v := eval vm_compute in (Prim2SF f) in
  replace (Prim2SF f) with v by (vm_compute; reflexivity);
  unfold powerRZ;
  match goal with
  | |- context [Pos.to_nat ?p] =>
      let n := eval vm_compute in (Pos.to_nat p) in change (Pos.to_nat p) with n
  end;
  lra.

Lemma float_to_R_angle :
  float_to_R 0x1.921fb5323e7b1p-1%float = (7074237733136305 / 9007199254740992)%R.
Proof. float_value 0x1.921fb5323e7b1p-1%float. Qed.

Lemma float_to_R_sin :
  float_to_R 0x1.6a09e65b36528p-1%float = (796131457395877 / 1125899906842624)%R.
Proof. float_value 0x1.6a09e65b36528p-1%float. Qed.

Lemma float_to_R_cos :
  float_to_R 0x1.6a09e674b1272p-1%float = (3184525842942265 / 4503599627370496)%R.
Proof. float_value 0x1.6a09e674b1272p-1%float. Qed.

(** Those two doubles are the correctly rounded sine and cosine of the angle:
    each is within half a unit in the last place (2^-54) of the exact value,
    by the Taylor bounds of order 4. *)
Lemma INR_fact_S (n : nat) : INR (fact (S n)) = (INR (S n) * INR (fact n))%R.
Proof. rewrite fact_simpl, mult_INR. reflexivity. Qed.

Ltac series_consts Hx :=
  cbn [sum_f_R0] in Hx; unfold sin_term, cos_term in Hx;
  cbn [Nat.mul Nat.add] in Hx;
  repeat rewrite INR_fact_S in Hx;
  change (INR (fact 0)) with 1%R in Hx;
  repeat rewrite S_INR in Hx; change (INR 0) with 0%R in Hx.

Lemma sin_at_angle :
  (Rabs (796131457395877 / 1125899906842624 -
         sin (7074237733136305 / 9007199254740992)) <= / 18014398509481984)%R.
Proof.
  destruct (pre_sin_bound (7074237733136305 / 9007199254740992) 4) as [Hl Hu];
    [lra | lra |].
  unfold sin_approx in Hl, Hu. cbn [Nat.mul Nat.add] in Hl, Hu.
  series_consts Hl. series_consts Hu.
  apply Rabs_le. split; lra.
Qed.

Lemma cos_at_angle :
  (Rabs (3184525842942265 / 4503599627370496 -
         cos (7074237733136305 / 9007199254740992)) <= / 18014398509481984)%R.
Proof.
  destruct (pre_cos_bound (7074237733136305 / 9007199254740992) 4) as [Hl Hu];
    [lra | lra |].
  unfold cos_approx in Hl, Hu. cbn [Nat.mul Nat.add] in Hl, Hu.
  series_consts Hl. series_consts Hu.
  apply Rabs_le. split; lra.
Qed.

(** The computed y leaves the box: 2.617993871 s into the figure, with the
    correctly rounded [sin] and [cos] of the code's angle, the code's
    [RADIUS * sin a * cos a] is 0x1.e000000000002p+2 = 7.5000000000000018,
    above RADIUS / 2 = 7.5. *)
Lemma figure8_y_leaves_box_binary64 :
  exists s c : float,
    (Rabs (float_to_R s - sin (float_to_R (binary64_angle 2617993871))) <=
     / 18014398509481984)%R /\
    (Rabs (float_to_R c - cos (float_to_R (binary64_angle 2617993871))) <=
     / 18014398509481984)%R /\
    forall fsin fcos : float -> float,
      fsin (binary64_angle 2617993871) = s ->
      fcos (binary64_angle 2617993871) = c ->
      pos_y (@figure8_target float (binary64_ops fsin fcos)
               (@toSec float (binary64_ops fsin fcos) 2617993871)) =
        0x1.e000000000002p+2%float /\
      in_box_binary64 (@figure8_target float (binary64_ops fsin fcos)
                         (@toSec float (binary64_ops fsin fcos) 2617993871)) = false.
Proof.
  exists 0x1.6a09e65b36528p-1%float, 0x1.6a09e674b1272p-1%float.
  rewrite binary64_angle_value, float_to_R_angle, float_to_R_sin, float_to_R_cos.
  split; [exact sin_at_angle|]. split; [exact cos_at_angle|].
  intros fsin fcos Hs Hc. rewrite <- binary64_angle_value in Hs, Hc.
  apply (binary64_y_at fsin fcos Hs Hc).
Qed.

(** ** Sample runs in rounded arithmetic *)

(** The target at 5 s when nothing is rounded. *)
Lemma figure8_box_rounding_witness :
  in_box_up_to (1 / 100000000000000)
    (@figure8_target R (rounded_ops (fun r => r) sin cos (fun d => IZR d)) 5%R).
Proof.
  apply (proj2 figure8_target_in_box_up_to_rounding
               (fun r => r) sin cos (fun d => IZR d) 5%R).
  - apply exact_rounding; lra.
  - apply (exact_library (/ 4503599627370496)). lra.
  - apply (exact_library (/ 4503599627370496)). lra.
Defined.

(** X12 for start-up and two passes when nothing is rounded. *)
Lemma setpoints_in_fence_witness :
  Forall (in_fence_up_to (1 / 100000000000000))
    (map snd
       (output (@main R (rounded_ops (fun r => r) sin cos (fun d => IZR d)) 3%nat 2%nat)
               (sample_env 0%Z 3000000000%Z [disarmed])
               (@initial_world R (rounded_ops (fun r => r) sin cos (fun d => IZR d))))).
Proof.
  apply (setpoints_in_fence_up_to_rounding (fun r => r) sin cos (fun d => IZR d)
           (sample_env 0%Z 3000000000%Z [disarmed]) 3%nat 2%nat).
  - apply exact_rounding; lra.
  - apply (exact_library (/ 4503599627370496)). lra.
  - apply (exact_library (/ 4503599627370496)). lra.
Defined.
